(** * Verification of the training orchestration loop ([train/train.py])

    The development embeds [train.py] shallowly.  Integers are [Z] (Python
    integers are unbounded, [//] and [%] are floor division and its
    remainder, i.e. [Z.div] and [Z.modulo]); token tensors are lists of rows;
    the objects of the numeric library (network, optimizer, scheduler, loss
    scaler) are abstract states with abstract transitions, gathered in the
    interface [Torch]; floating point numbers are an abstract type of that
    interface as well.  Calls into external collaborators are recorded, in
    program order, as a list of [Event]s next to the mutable [World]
    (logger level, process group, checkpoint files).

    The entry point [main] is embedded as the list of workers it launches.

    External calls are assumed to return, with two exceptions: opening a
    checkpoint file that is not there fails, and so does tearing down a
    process group that was never set up.  Python's own [ZeroDivisionError]
    is raised where the source divides by zero. *)

From Stdlib Require Import ZArith QArith String Ascii DecimalString DecimalZ
  DecimalPos Bool Lia List.
Import ListNotations.

Open Scope Z_scope.

Set Implicit Arguments.

(* ------------------------------------------------------------------ *)
(** ** Python helpers *)

(** [str(n)] for an integer, as an f-string formats it. *)
Definition str (n : Z) : string := NilZero.string_of_int (Z.to_int n).

(** [range(lo, hi)]. *)
Definition range (lo hi : Z) : list Z :=
  map (fun i => lo + Z.of_nat i) (seq 0 (Z.to_nat (hi - lo))).

(** [enumerate(xs)], counting from [start]. *)
Fixpoint enumerate_from {A : Type} (start : Z) (xs : list A) : list (Z * A) :=
  match xs with
  | [] => []
  | x :: xs' => (start, x) :: enumerate_from (start + 1) xs'
  end.

Definition enumerate {A : Type} (xs : list A) : list (Z * A) :=
  enumerate_from 0 xs.

(** [len(xs)] as a Python integer. *)
Definition len {A : Type} (xs : list A) : Z := Z.of_nat (List.length xs).

(* ------------------------------------------------------------------ *)
(** ** Devices *)

(** A [torch.device]: the device kind and the text of its ordinal, when the
    device string has one. *)
Record Device := mkDevice { type : string; index : option string }.

(** Splits a device string at its first colon. *)
Fixpoint split_colon (s : string) : string * option string :=
  match s with
  | EmptyString => (EmptyString, None)
  | String c s' =>
      if Ascii.eqb c ":"%char then (EmptyString, Some s')
      else let (k, i) := split_colon s' in (String c k, i)
  end.

(** [torch.device(s)] for a device string the library accepts: the kind
    before the colon and the ordinal after it.  The library rejects other
    strings (an unknown kind, a negative ordinal) with an exception;
    [device_index_ok] and [device_string_ok] below give ranks and strings it
    accepts, and the statements about the device of a run assume them. *)
Definition T_device (s : string) : Device :=
  let (k, i) := split_colon s in mkDevice k i.

(** Line 100: [T.device(f"cuda:{rank}" if rank != -1 else device)]. *)
Definition loop_device (device : string) (rank : Z) : Device :=
  T_device (if negb (rank =? -1) then ("cuda:" ++ str rank)%string else device).

(* ------------------------------------------------------------------ *)
(** ** Rank predicates and the data pipeline *)

(** Lines 34-35. *)
Definition is_main_process (rank world_size : Z) : bool :=
  ((rank =? -1) && (world_size =? -1)) || ((rank =? 0) && (world_size >? 0)).

(** The arguments [CornellMovieDataset] is constructed with.  The two
    transforms of the source are [Lambda(lambda x: T.tensor(x, device))];
    they are represented by the device they place tensors on. *)
Record Dataset := mkDataset {
  max_context_length : Z;
  max_sentence_length : Z;
  transforms : option Device;
  target_transforms : option Device
}.

(** [DistributedSampler(dataset, world_size, rank)]. *)
Record DistributedSampler := mkSampler {
  num_replicas : Z;
  sampler_rank : Z
}.

(** [DataLoader(dataset, batch_size=..., sampler=...)]. *)
Record DataLoader := mkDataLoader {
  dataset : Dataset;
  batch_size : Z;
  sampler : option DistributedSampler
}.

(** Lines 38-61. *)
Definition prepare_dataloader (batch_size max_seq_len rank world_size : Z)
    (transforms target_transforms : option Device) : DataLoader :=
  let max_sentence_len := max_seq_len / 4 in
  let max_passage_len := max_seq_len in
  let dataset :=
    mkDataset max_passage_len max_sentence_len transforms target_transforms in
  let sampler :=
    if negb (rank =? -1) && negb (world_size =? -1)
    then Some (mkSampler world_size rank)
    else None in
  mkDataLoader dataset batch_size sampler.

(* ------------------------------------------------------------------ *)
(** ** Tensors and masks *)

(** A two-dimensional integer tensor (batch, length), row by row. *)
Definition Tokens := list (list Z).

Definition BoolTensor := list (list bool).

(** [t.size(0)] and [t.size(1)] (also [t.size(-1)]) of a 2-D tensor. *)
Definition size0 {A : Type} (t : list (list A)) : Z := len t.
Definition size1 {A : Type} (t : list (list A)) : Z := len (hd [] t).

(** [t[:, :-1]] and [t[:, 1:]]. *)
Definition all_but_last (t : Tokens) : Tokens := map (@removelast Z) t.
Definition all_but_first (t : Tokens) : Tokens := map (@tl Z) t.

(** [t == v], elementwise. *)
Definition eq_scalar (t : Tokens) (v : Z) : BoolTensor :=
  map (map (fun x => x =? v)) t.

(** [t.flatten()]. *)
Definition flatten {A : Type} (t : list (list A)) : list A := concat t.

(** Modelled from the spec: [utils.make_look_ahead_mask] is not part of
    [train.py]; entry [(i, j)] of the [n] x [n] mask blocks attention from
    position [i] to a strictly later position [j]. *)
Definition make_look_ahead_mask (n : Z) (device : Device) : BoolTensor :=
  map (fun i => map (fun j => i <? j) (range 0 n)) (range 0 n).

Record Masks := mkMasks {
  tgt_mask : BoolTensor;
  src_key_padding_mask : BoolTensor;
  tgt_key_padding_mask : BoolTensor
}.

(* ------------------------------------------------------------------ *)
(** ** The numeric library, as an interface *)

Class Torch := {
  (** floating point numbers *)
  Float : Type;
  float_of_int : Z -> Float;
  fadd : Float -> Float -> Float;
  fdiv : Float -> Float -> Float;
  fgtb : Float -> Float -> bool;
  (** the vocabulary: [len(vocab)] and [vocab.PAD_IDX] *)
  vocab_len : Z;
  PAD_IDX : Z;
  (** the batches a data loader yields in one pass *)
  iter_batches : DataLoader -> list (Tokens * Tokens);
  (** states of the network, optimizer, scheduler and loss scaler *)
  NetS : Type;
  OptS : Type;
  SchedS : Type;
  ScalS : Type;
  (** [model_kwargs | {"num_embed": n}] *)
  Kwargs : Type;
  with_num_embed : Kwargs -> Z -> Kwargs;
  (** constructors *)
  Network_to : Kwargs -> Device -> NetS;
  DDP : NetS -> list Z -> NetS;
  num_parameters : NetS -> Z;
  Adam : NetS -> Float -> Float -> OptS;
  CosineAnnealingWarmRestarts : OptS -> Z -> SchedS * OptS;
  GradScaler : ScalS;
  (** [network(prompts, labels_input, **masks)] under [autocast(enabled)] *)
  network_call : NetS -> bool -> Tokens -> Tokens -> Masks -> list (list (list Float));
  (** the cross-entropy term of one position: minus the log-probability
      the row of logits gives to the target class *)
  nll : list Float -> Z -> Float;
  (** [loss.backward()] and [scaler.scale(loss).backward()]; the loss is a
      function of the network and the batch *)
  loss_backward : NetS -> Tokens -> Tokens -> NetS;
  scaled_backward : ScalS -> NetS -> Tokens -> Tokens -> NetS;
  optimizer_step : OptS -> NetS -> OptS * NetS;
  scaler_step : ScalS -> OptS -> NetS -> ScalS * OptS * NetS;
  scaler_update : ScalS -> ScalS;
  zero_grad : OptS -> NetS -> NetS;
  scheduler_step : SchedS -> OptS -> SchedS * OptS
}.

Section TrainingLoop.

Context {TORCH : Torch}.

Definition Logits := list (list (list Float)).

(** [y.view(-1, len(vocab))] for logits of shape (batch, length, vocabulary):
    the rows of all positions, batch after batch. *)
Definition view_rows (y : Logits) : list (list Float) := concat y.

(** Sum of floats, left to right. *)
Definition fsum (xs : list Float) : Float :=
  fold_left fadd xs (float_of_int 0).

(** [nn.CrossEntropyLoss(ignore_index)] with its default mean reduction: the
    terms of the positions whose target is not [ignore_index], averaged over
    the number of those positions. *)
Definition CrossEntropyLoss (ignore_index : Z)
    (input : list (list Float)) (target : list Z) : Float :=
  let kept :=
    filter (fun rt => negb (snd rt =? ignore_index)) (combine input target) in
  fdiv (fsum (map (fun rt => nll (fst rt) (snd rt)) kept))
       (float_of_int (len kept)).

(** [T.argmax(row)]: the index of the first maximal entry. *)
Fixpoint argmax_from (i best_i : Z) (best : Float) (row : list Float) : Z :=
  match row with
  | [] => best_i
  | x :: row' =>
      if fgtb x best then argmax_from (i + 1) i x row'
      else argmax_from (i + 1) best_i best row'
  end.

Definition argmax (row : list Float) : Z :=
  match row with
  | [] => 0
  | x :: row' => argmax_from 1 0 x row'
  end.

(** [T.sum(T.argmax(y, dim=-1) == labels_expected).item()]. *)
Definition count_correct (y : Logits) (labels_expected : Tokens) : Z :=
  len (filter (fun pt => argmax (fst pt) =? snd pt)
         (combine (view_rows y) (flatten labels_expected))).

(* ------------------------------------------------------------------ *)
(** ** State, events and the monad of the loop *)

Inductive Level := INFO | CRITICAL.

(** The four stateful objects the loop steps and persists together. *)
Record Trainer := mkTrainer {
  tr_network : NetS;
  tr_optimizer : OptS;
  tr_scheduler : SchedS;
  tr_scaler : ScalS
}.

(** The dictionary a checkpoint file holds. *)
Record Checkpoint := mkCheckpoint {
  ck_network : NetS;
  ck_optimizer : OptS;
  ck_scheduler : SchedS;
  ck_scaler : ScalS;
  ck_epochs : Z
}.

Record World := mkWorld {
  logger_level : Level;
  process_group : option (Z * Z);
  checkpoints : string -> option Checkpoint;
  models : string -> option NetS
}.

Inductive LogMsg :=
| MsgParameters (n : Z)
| MsgCheckpointExists
| MsgCheckpointNew
| MsgSaving
| MsgMetrics (accuracy avg_loss : Float).

Inductive Event :=
| EvLogInfo (m : LogMsg)
| EvInitProcessGroup (backend : string) (rank : Z) (init_method : string)
    (world_size : Z)
| EvDestroyProcessGroup
| EvTqdm (epoch : Z) (disable : bool)
| EvForward (autocast : bool)
| EvScaledBackward
| EvScalerStep
| EvScalerUpdate
| EvBackward
| EvOptimizerStep
| EvZeroGrad
| EvSchedulerStep
| EvLoadCheckpoint (name : string)
| EvSaveCheckpoint (name : string) (epoch : Z)
| EvSaveModel (name : string).

Inductive Exc := ZeroDivisionError | FileNotFoundError | AssertionError.

Record Outcome (A : Type) := mkOutcome {
  result : Exc + A;
  world : World;
  events : list Event
}.

Definition M (A : Type) : Type := World -> Outcome A.

Definition ret {A : Type} (a : A) : M A :=
  fun w => mkOutcome (inr a) w [].

Definition bind {A B : Type} (m : M A) (f : A -> M B) : M B :=
  fun w =>
    let o := m w in
    match result o with
    | inl e => mkOutcome (inl e) (world o) (events o)
    | inr a =>
        let o' := f a (world o) in
        mkOutcome (result o') (world o') (events o ++ events o')
    end.

Definition raise {A : Type} (e : Exc) : M A :=
  fun w => mkOutcome (inl e) w [].

Definition emit (e : Event) : M unit :=
  fun w => mkOutcome (inr tt) w [e].

Definition get_world : M World :=
  fun w => mkOutcome (inr w) w [].

Definition put_world (w' : World) : M unit :=
  fun _ => mkOutcome (inr tt) w' [].

End TrainingLoop.

Declare Scope loop_scope.
Delimit Scope loop_scope with loop.
Notation "x <- m ;; k" := (bind m (fun x => k))
  (at level 100, m at next level, right associativity) : loop_scope.
Notation "m ;; k" := (bind m (fun _ => k))
  (at level 100, right associativity) : loop_scope.
Open Scope loop_scope.

Section Loop.

Context {TORCH : Torch}.

(** A [for] loop threading the values its body reassigns. *)
Fixpoint forM {A S : Type} (xs : list A) (body : S -> A -> M S) (s : S) : M S :=
  match xs with
  | [] => ret s
  | x :: xs' => s' <- body s x ;; forM xs' body s'
  end.

(** Python's [a % b] and true division [a / b] on integers. *)
Definition py_mod (a b : Z) : M Z :=
  if b =? 0 then raise ZeroDivisionError else ret (a mod b).

Definition py_truediv (a b : Z) : M Float :=
  if b =? 0 then raise ZeroDivisionError
  else ret (fdiv (float_of_int a) (float_of_int b)).

(** Python's [x / n] for a float [x] and an integer [n]. *)
Definition py_fdiv_int (x : Float) (n : Z) : M Float :=
  if n =? 0 then raise ZeroDivisionError
  else ret (fdiv x (float_of_int n)).

(* ------------------------------------------------------------------ *)
(** ** Logging and the process group *)

(** [logger.setLevel(l)]. *)
Definition logger_setLevel (l : Level) : M unit :=
  w <- get_world ;;
  put_world (mkWorld l (process_group w) (checkpoints w) (models w)).

(** [logger.info(msg)]: the record is emitted when the level admits it. *)
Definition logger_info (m : LogMsg) : M unit :=
  w <- get_world ;;
  match logger_level w with
  | INFO => emit (EvLogInfo m)
  | CRITICAL => ret tt
  end.

(** Lines 77-83. *)
Definition prepare_logger (rank world_size : Z) : M unit :=
  if is_main_process rank world_size
  then logger_setLevel INFO
  else logger_setLevel CRITICAL.

(** Lines 21-27. *)
Definition setup_distributed (rank world_size : Z) : M unit :=
  emit (EvInitProcessGroup "gloo" rank "tcp://localhost:8080" world_size) ;;
  w <- get_world ;;
  put_world (mkWorld (logger_level w) (Some (rank, world_size))
               (checkpoints w) (models w)).

(** Lines 30-31.  [dist.destroy_process_group()] releases the process group
    of the worker; called when no group was set up, it fails on its
    assertion that there is one. *)
Definition cleanup_distibuted : M unit :=
  emit EvDestroyProcessGroup ;;
  w <- get_world ;;
  match process_group w with
  | Some _ =>
      put_world (mkWorld (logger_level w) None (checkpoints w) (models w))
  | None => raise AssertionError
  end.

(** Lines 64-74. *)
Definition prepare_network (model_kwargs : Kwargs) (rank world_size : Z)
    (device : Device) : M NetS :=
  let network := Network_to model_kwargs device in
  if negb (rank =? -1) && negb (world_size =? -1) then
    setup_distributed rank world_size ;;
    ret (DDP network [rank])
  else ret network.

(* ------------------------------------------------------------------ *)
(** ** The checkpoint store *)

Definition update {V : Type} (f : string -> option V) (k : string) (v : V)
    : string -> option V :=
  fun k' => if String.eqb k k' then Some v else f k'.

(** Modelled from the spec: [utils.ModelLoader] is not part of [train.py].
    [checkpoint_exists] is a pure check of the checkpoint named after the
    model. *)
Definition checkpoint_exists (model_name : string) : M bool :=
  w <- get_world ;;
  ret (match checkpoints w model_name with Some _ => true | None => false end).

(** Modelled from the spec: [load_checkpoint] returns the stored five-field
    checkpoint, and fails when there is none. *)
Definition load_checkpoint (model_name : string) : M Checkpoint :=
  emit (EvLoadCheckpoint model_name) ;;
  w <- get_world ;;
  match checkpoints w model_name with
  | Some x => ret x
  | None => raise FileNotFoundError
  end.

(** Modelled from the spec: [save_checkpoint] serializes the current state
    under the model's name and overwrites any prior checkpoint. *)
Definition save_checkpoint (model_name : string) (tr : Trainer) (epoch : Z)
    : M unit :=
  emit (EvSaveCheckpoint model_name epoch) ;;
  w <- get_world ;;
  put_world
    (mkWorld (logger_level w) (process_group w)
       (update (checkpoints w) model_name
          (mkCheckpoint (tr_network tr) (tr_optimizer tr) (tr_scheduler tr)
             (tr_scaler tr) epoch))
       (models w)).

(** Modelled from the spec: [save_model] writes the trained model as an
    artifact of its own. *)
Definition save_model (model_name : string) (net : NetS) : M unit :=
  emit (EvSaveModel model_name) ;;
  w <- get_world ;;
  put_world
    (mkWorld (logger_level w) (process_group w) (checkpoints w)
       (update (models w) model_name net)).

(* ------------------------------------------------------------------ *)
(** ** The training loop *)

(** Line 129. *)
Definition criterion : list (list Float) -> list Z -> Float :=
  CrossEntropyLoss PAD_IDX.

(** The per-epoch accumulators of lines 146-148. *)
Record Metrics := mkMetrics {
  num_correct : Z;
  num_total : Z;
  total_loss : Float
}.

(** Lines 176-182: backward pass and optimizer step. *)
Definition backward_and_step (device : Device) (tr : Trainer)
    (prompts labels : Tokens) : M Trainer :=
  if String.eqb (type device) "cuda" then
    emit EvScaledBackward ;;
    let net1 := scaled_backward (tr_scaler tr) (tr_network tr) prompts labels in
    emit EvScalerStep ;;
    let '(scal2, opt2, net2) := scaler_step (tr_scaler tr) (tr_optimizer tr) net1 in
    emit EvScalerUpdate ;;
    ret (mkTrainer net2 opt2 (tr_scheduler tr) (scaler_update scal2))
  else
    emit EvBackward ;;
    let net1 := loss_backward (tr_network tr) prompts labels in
    emit EvOptimizerStep ;;
    let '(opt2, net2) := optimizer_step (tr_optimizer tr) net1 in
    ret (mkTrainer net2 opt2 (tr_scheduler tr) (tr_scaler tr)).

(** Lines 157-195: the body of the batch loop. *)
Definition train_batch (model_name : string) (checkpoint_interval : Z)
    (device : Device) (epoch : Z) (st : Trainer * Metrics)
    (item : Z * (Tokens * Tokens)) : M (Trainer * Metrics) :=
  let '(tr, mt) := st in
  let '(batch_idx, (prompts, labels)) := item in
  let labels_input := all_but_last labels in
  let labels_expected := all_but_first labels in
  let masks :=
    mkMasks (make_look_ahead_mask (size1 labels_input) device)
            (eq_scalar prompts PAD_IDX)
            (eq_scalar labels_input PAD_IDX) in
  let autocast := String.eqb (type device) "cuda" in
  emit (EvForward autocast) ;;
  let y := network_call (tr_network tr) autocast prompts labels_input masks in
  let loss := criterion (view_rows y) (flatten labels_expected) in
  let total_loss := fadd (total_loss mt) loss in
  tr1 <- backward_and_step device tr prompts labels ;;
  emit EvZeroGrad ;;
  let tr2 :=
    mkTrainer (zero_grad (tr_optimizer tr1) (tr_network tr1)) (tr_optimizer tr1)
      (tr_scheduler tr1) (tr_scaler tr1) in
  emit EvSchedulerStep ;;
  let '(sched3, opt3) := scheduler_step (tr_scheduler tr2) (tr_optimizer tr2) in
  let tr3 := mkTrainer (tr_network tr2) opt3 sched3 (tr_scaler tr2) in
  let num_correct := num_correct mt + count_correct y labels_expected in
  let num_total := num_total mt + size0 prompts * size1 prompts in
  r <- py_mod batch_idx checkpoint_interval ;;
  (if r =? 0 then
     logger_info MsgSaving ;;
     save_checkpoint model_name tr3 epoch
   else ret tt) ;;
  ret (tr3, mkMetrics num_correct num_total total_loss).

(** Lines 146-200: one epoch. *)
Definition train_epoch (model_name : string) (checkpoint_interval : Z)
    (device : Device) (rank world_size : Z) (dataloader : DataLoader)
    (tr : Trainer) (epoch : Z) : M Trainer :=
  let mt0 := mkMetrics 0 0 (float_of_int 0) in
  emit (EvTqdm epoch (negb (is_main_process rank world_size))) ;;
  st <- forM (enumerate (iter_batches dataloader))
          (train_batch model_name checkpoint_interval device epoch)
          (tr, mt0) ;;
  let '(tr', mt) := st in
  avg_loss <- py_fdiv_int (total_loss mt) (len (iter_batches dataloader)) ;;
  accuracy <- py_truediv (num_correct mt) (num_total mt) ;;
  logger_info (MsgMetrics accuracy avg_loss) ;;
  ret tr'.

(** Lines 133-143: resume from the checkpoint, or start afresh. *)
Definition load_or_create (model_name : string) (tr : Trainer)
    : M (Trainer * Z) :=
  found <- checkpoint_exists model_name ;;
  if found then
    logger_info MsgCheckpointExists ;;
    x <- load_checkpoint model_name ;;
    let tr' :=
      mkTrainer (ck_network x) (ck_optimizer x) (ck_scheduler x)
        (ck_scaler x) in
    let starting_epochs := ck_epochs x in
    ret (tr', starting_epochs)
  else
    logger_info MsgCheckpointNew ;;
    let starting_epochs := 0 in
    ret (tr, starting_epochs).

(** Lines 86-204. *)
Definition training_loop (model_name : string) (epochs batch_size : Z)
    (learning_rate weight_decay : Float) (max_seq_len checkpoint_interval : Z)
    (device : string) (model_kwargs : Kwargs) (rank world_size : Z) : M unit :=
  prepare_logger rank world_size ;;
  let device := loop_device device rank in
  let transforms := Some device in
  let dataloader :=
    prepare_dataloader batch_size max_seq_len rank world_size
      transforms transforms in
  network <- prepare_network (with_num_embed model_kwargs vocab_len)
               rank world_size device ;;
  logger_info (MsgParameters (num_parameters network)) ;;
  let optimizer := Adam network learning_rate weight_decay in
  let '(scheduler, optimizer) := CosineAnnealingWarmRestarts optimizer 20 in
  let scaler := GradScaler in
  st <- load_or_create model_name
          (mkTrainer network optimizer scheduler scaler) ;;
  let '(tr, starting_epochs) := st in
  tr' <- forM (range (starting_epochs + 1) (starting_epochs + epochs + 1))
           (train_epoch model_name checkpoint_interval device rank world_size
              dataloader)
           tr ;;
  save_model model_name (tr_network tr') ;;
  cleanup_distibuted.

End Loop.

(* ------------------------------------------------------------------ *)
(** ** Observations on the recorded calls *)

Section Observations.

Context {TORCH : Torch}.

Definition is_log (e : Event) : bool :=
  match e with EvLogInfo _ => true | _ => false end.

(** The calls other than emitted log records. *)
Definition calls (evs : list Event) : list Event :=
  filter (fun e => negb (is_log e)) evs.

(** The epochs for which a pass over the data loader was started. *)
Definition epochs_iterated (evs : list Event) : list Z :=
  flat_map (fun e => match e with EvTqdm n _ => [n] | _ => [] end) evs.

(** The checkpoint saves: destination and epoch tag. *)
Definition saves (evs : list Event) : list (string * Z) :=
  flat_map
    (fun e => match e with EvSaveCheckpoint n k => [(n, k)] | _ => [] end)
    evs.

Definition is_scheduler_step (e : Event) : bool :=
  match e with EvSchedulerStep => true | _ => false end.

Definition scheduler_steps (evs : list Event) : nat :=
  List.length (filter is_scheduler_step evs).

Definition is_group_init (e : Event) : bool :=
  match e with EvInitProcessGroup _ _ _ _ => true | _ => false end.

Definition is_group_teardown (e : Event) : bool :=
  match e with EvDestroyProcessGroup => true | _ => false end.

(** How often a process group was set up, and how often torn down. *)
Definition group_inits (evs : list Event) : nat :=
  List.length (filter is_group_init evs).

Definition group_teardowns (evs : list Event) : nat :=
  List.length (filter is_group_teardown evs).

Definition is_forward (e : Event) : bool :=
  match e with EvForward _ => true | _ => false end.

(** The number of batches whose forward pass was run. *)
Definition batches_processed (evs : list Event) : nat :=
  List.length (filter is_forward evs).

(** The zero-based indices of the batches in which a checkpoint was saved; a
    batch begins with its forward pass, [i] is the index of the batch the
    events read so far belong to. *)
Fixpoint saving_batches_from (i : Z) (evs : list Event) : list Z :=
  match evs with
  | [] => []
  | EvForward _ :: evs' => saving_batches_from (i + 1) evs'
  | EvSaveCheckpoint _ _ :: evs' => i :: saving_batches_from i evs'
  | _ :: evs' => saving_batches_from i evs'
  end.

Definition saving_batches (evs : list Event) : list Z :=
  saving_batches_from (-1) evs.

(** Whether the device is an accelerator, as lines 166 and 176 test it. *)
Definition is_cuda (device : Device) : bool :=
  String.eqb (type device) "cuda".

(** The calls of the backward pass and optimizer step of one batch. *)
Definition step_calls (cuda : bool) : list Event :=
  if cuda then [EvScaledBackward; EvScalerStep; EvScalerUpdate]
  else [EvBackward; EvOptimizerStep].

(** What the checkpoint test at the end of batch [i] emits. *)
Definition save_events (lvl : Level) (name : string) (epoch i k : Z)
    : list Event :=
  if k =? 0 then []
  else if i mod k =? 0 then
    match lvl with INFO => [EvLogInfo MsgSaving] | CRITICAL => [] end
    ++ [EvSaveCheckpoint name epoch]
  else [].

(** Everything one batch emits. *)
Definition batch_events (cuda : bool) (lvl : Level) (name : string)
    (epoch i k : Z) : list Event :=
  EvForward cuda :: step_calls cuda ++ [EvZeroGrad; EvSchedulerStep]
  ++ save_events lvl name epoch i k.

(** The events of the batches [bs], numbered from [i0]. *)
Definition loop_events (cuda : bool) (lvl : Level) (name : string)
    (epoch k i0 : Z) (bs : list (Tokens * Tokens)) : list Event :=
  flat_map (fun ib => batch_events cuda lvl name epoch (fst ib) k)
    (enumerate_from i0 bs).

(** The calls of batch [i], log records left out. *)
Definition batch_calls (cuda : bool) (name : string) (epoch i k : Z)
    : list Event :=
  EvForward cuda :: step_calls cuda ++ [EvZeroGrad; EvSchedulerStep]
  ++ (if i mod k =? 0 then [EvSaveCheckpoint name epoch] else []).

(** The calls of one epoch over [n] batches, log records left out. *)
Definition epoch_calls (cuda main : bool) (name : string) (k : Z) (n : nat)
    (epoch : Z) : list Event :=
  EvTqdm epoch (negb main)
  :: flat_map (fun i => batch_calls cuda name epoch i k) (range 0 (Z.of_nat n)).

(** Whether the worker joins a process group, as lines 56 and 71 test it. *)
Definition is_distributed (rank world_size : Z) : bool :=
  negb (rank =? -1) && negb (world_size =? -1).

(** The epoch count a run starts from, given the checkpoint file. *)
Definition starting_epochs_of (ck : option Checkpoint) : Z :=
  match ck with Some x => ck_epochs x | None => 0 end.

(** The calls of a whole run that meets no exception, log records left out;
    [n] is the number of batches of one pass over the data loader. *)
Definition run_calls (cuda : bool) (name : string) (epochs k : Z)
    (rank world_size : Z) (ck : option Checkpoint) (n : nat) : list Event :=
  (if is_distributed rank world_size
   then [EvInitProcessGroup "gloo" rank "tcp://localhost:8080" world_size]
   else [])
  ++ match ck with Some _ => [EvLoadCheckpoint name] | None => [] end
  ++ flat_map
       (epoch_calls cuda (is_main_process rank world_size) name k n)
       (range (starting_epochs_of ck + 1) (starting_epochs_of ck + epochs + 1))
  ++ [EvSaveModel name; EvDestroyProcessGroup].

(** The data loader the loop builds (lines 103-111). *)
Definition loop_dataloader (batch_size max_seq_len : Z) (device : string)
    (rank world_size : Z) : DataLoader :=
  prepare_dataloader batch_size max_seq_len rank world_size
    (Some (loop_device device rank)) (Some (loop_device device rank)).

(** The prompt tokens of a list of batches, as line 189 counts them. *)
Definition prompt_tokens (bs : list (Tokens * Tokens)) : Z :=
  fold_right (fun b acc => size0 (fst b) * size1 (fst b) + acc) 0 bs.

(** The positions of a batch at which a prediction is compared with the
    expected label. *)
Definition label_positions (labels : Tokens) : Z :=
  len (flatten (all_but_first labels)).

End Observations.

(* ------------------------------------------------------------------ *)
(** ** A small instance of the interface

    Rationals stand for floats, the network answers every call with the
    same logits [y], every pass over the data yields [batches], and the
    states count the steps taken.  The per-position loss reads the logits as
    log-probabilities. *)

Definition toy_torch (batches : list (Tokens * Tokens))
    (y : list (list (list Q))) : Torch :=
  {| Float := Q;
     float_of_int := inject_Z;
     fadd := Qplus;
     fdiv := Qdiv;
     fgtb := fun a b => negb (Qle_bool a b);
     vocab_len := 3;
     PAD_IDX := 0;
     iter_batches := fun _ => batches;
     NetS := nat;
     OptS := nat;
     SchedS := nat;
     ScalS := nat;
     Kwargs := unit;
     with_num_embed := fun kw _ => kw;
     Network_to := fun _ _ => 0%nat;
     DDP := fun n _ => n;
     num_parameters := fun _ => 0;
     Adam := fun _ _ _ => 0%nat;
     CosineAnnealingWarmRestarts := fun o _ => (0%nat, o);
     GradScaler := 0%nat;
     network_call := fun _ _ _ _ _ => y;
     nll := fun row t => Qopp (nth (Z.to_nat t) row 0%Q);
     loss_backward := fun n _ _ => n;
     scaled_backward := fun _ n _ _ => n;
     optimizer_step := fun o n => (S o, S n);
     scaler_step := fun s o n => (s, S o, S n);
     scaler_update := S;
     zero_grad := fun _ n => n;
     scheduler_step := fun s o => (S s, o) |}.

(** A prompt of sixteen tokens and a label of four: three decoder
    positions, the last of them padding. *)
Definition toy_prompts : Tokens := [[5; 6; 7; 8; 5; 6; 7; 8; 5; 6; 7; 8; 5; 6; 7; 8]].
Definition toy_labels : Tokens := [[1; 2; 1; 0]].

(** Logits whose largest entries sit at the classes 2, 1 and 0. *)
Definition toy_logits : list (list (list Q)) :=
  [[ [-3; -2; -1]; [-2; -1; -3]; [-1; -2; -3] ]]%Q.

Definition toy_batches : list (Tokens * Tokens) :=
  [(toy_prompts, toy_labels); (toy_prompts, toy_labels);
   (toy_prompts, toy_labels)].

Definition toy : Torch := toy_torch toy_batches toy_logits.

(** A world with no process group, and the checkpoint file [ck] of the
    model named "chat". *)
Definition toy_world (ck : option (@Checkpoint toy)) : @World toy :=
  @mkWorld toy CRITICAL None
    (fun n => if String.eqb n "chat" then ck else None)
    (fun _ => None).

Definition toy_trainer : @Trainer toy := @mkTrainer toy 0%nat 0%nat 0%nat 0%nat.

Definition toy_checkpoint : @Checkpoint toy :=
  @mkCheckpoint toy 7%nat 7%nat 7%nat 7%nat 4.

(* ------------------------------------------------------------------ *)
(** ** The stages of a run *)

Section Stages.

Context {TORCH : Torch}.

(** The world after the logger and the network are prepared (lines 99-118). *)
Definition setup_world (rank world_size : Z) (w : World) : World :=
  mkWorld (if is_main_process rank world_size then INFO else CRITICAL)
    (if is_distributed rank world_size then Some (rank, world_size)
     else process_group w)
    (checkpoints w) (models w).

(** Whether a process group is set up, and how its teardown ends. *)
Definition group_live (w : World) : bool :=
  match process_group w with Some _ => true | None => false end.

Definition teardown_result (w : World) : Exc + unit :=
  if group_live w then inr tt else inl AssertionError.

(** The network [prepare_network] returns. *)
Definition initial_network (device : string) (kw : Kwargs)
    (rank world_size : Z) : NetS :=
  let net := Network_to (with_num_embed kw vocab_len) (loop_device device rank) in
  if is_distributed rank world_size then DDP net [rank] else net.

(** The objects constructed in lines 122-127. *)
Definition fresh_trainer (lr wd : Float) (device : string) (kw : Kwargs)
    (rank world_size : Z) : Trainer :=
  let net := initial_network device kw rank world_size in
  let '(sched, opt) := CosineAnnealingWarmRestarts (Adam net lr wd) 20 in
  mkTrainer net opt sched GradScaler.

(** The objects the first epoch starts from (lines 133-143). *)
Definition start_trainer (lr wd : Float) (device : string) (kw : Kwargs)
    (rank world_size : Z) (ck : option Checkpoint) : Trainer :=
  match ck with
  | Some x =>
      mkTrainer (ck_network x) (ck_optimizer x) (ck_scheduler x) (ck_scaler x)
  | None => fresh_trainer lr wd device kw rank world_size
  end.

(** What is emitted before the first epoch. *)
Definition setup_events (name : string) (device : string) (kw : Kwargs)
    (rank world_size : Z) (ck : option Checkpoint) : list Event :=
  let info m :=
    if is_main_process rank world_size then [EvLogInfo m] else [] in
  (if is_distributed rank world_size
   then [EvInitProcessGroup "gloo" rank "tcp://localhost:8080" world_size]
   else [])
  ++ info (MsgParameters
             (num_parameters (initial_network device kw rank world_size)))
  ++ match ck with
     | Some _ => info MsgCheckpointExists ++ [EvLoadCheckpoint name]
     | None => info MsgCheckpointNew
     end.

(** The epoch loop of line 145, from the state the set-up leaves. *)
Definition epochs_run (name : string) (epochs batch_size : Z)
    (lr wd : Float) (max_seq_len k : Z) (device : string) (kw : Kwargs)
    (rank world_size : Z) (w : World) : Outcome Trainer :=
  let e0 := starting_epochs_of (checkpoints w name) in
  forM (range (e0 + 1) (e0 + epochs + 1))
    (train_epoch name k (loop_device device rank) rank world_size
       (prepare_dataloader batch_size max_seq_len rank world_size
          (Some (loop_device device rank)) (Some (loop_device device rank))))
    (start_trainer lr wd device kw rank world_size (checkpoints w name))
    (setup_world rank world_size w).

(** Ranks [r] for which [torch.device] accepts the string of line 100,
    "cuda:r": a device ordinal must not be negative and fits a signed
    byte. *)
Definition device_index_ok (rank : Z) : bool :=
  (0 <=? rank) && (rank <=? 127).

(** Configured device strings [torch.device] accepts: the kinds "cpu" and
    "cuda", alone or followed by a colon and such an ordinal in decimal. *)
Definition device_string_ok (s : string) : bool :=
  let D := T_device s in
  (String.eqb (type D) "cpu" || String.eqb (type D) "cuda")
  && match index D with
     | None => true
     | Some i => existsb (fun n => String.eqb i (str n)) (range 0 128)
     end.

(** The set-up and the epoch loop of a run, for the device [D] the run is
    carried out on: the network placed on [D], the objects the first epoch
    starts from, and the epochs over a loader that places its tensors on
    [D]. *)
Definition initial_network_on (D : Device) (kw : Kwargs)
    (rank world_size : Z) : NetS :=
  let net := Network_to (with_num_embed kw vocab_len) D in
  if is_distributed rank world_size then DDP net [rank] else net.

Definition start_trainer_on (D : Device) (lr wd : Float) (kw : Kwargs)
    (rank world_size : Z) (ck : option Checkpoint) : Trainer :=
  match ck with
  | Some x =>
      mkTrainer (ck_network x) (ck_optimizer x) (ck_scheduler x) (ck_scaler x)
  | None =>
      let net := initial_network_on D kw rank world_size in
      let '(sched, opt) := CosineAnnealingWarmRestarts (Adam net lr wd) 20 in
      mkTrainer net opt sched GradScaler
  end.

Definition epochs_run_on (D : Device) (name : string) (epochs batch_size : Z)
    (lr wd : Float) (max_seq_len k : Z) (kw : Kwargs) (rank world_size : Z)
    (w : World) : Outcome Trainer :=
  let e0 := starting_epochs_of (checkpoints w name) in
  forM (range (e0 + 1) (e0 + epochs + 1))
    (train_epoch name k D rank world_size
       (prepare_dataloader batch_size max_seq_len rank world_size
          (Some D) (Some D)))
    (start_trainer_on D lr wd kw rank world_size (checkpoints w name))
    (setup_world rank world_size w).

(** The autocast flags of the forward passes, in order. *)
Definition forward_flags (evs : list Event) : list bool :=
  flat_map (fun e => match e with EvForward a => [a] | _ => [] end) evs.

(** What it is for a run to be carried out on the device [D]: after a
    set-up that runs no forward pass its events are those of the epoch loop
    on [D], followed by the export and the teardown when the loop
    completes; it leaves the world that loop leaves, with the network the
    loop returns exported; it ends as the loop does or, when the loop
    completes, as the teardown does. *)
Definition carried_out_on (D : Device) (name : string)
    (epochs batch_size : Z) (lr wd : Float) (max_seq_len k : Z) (kw : Kwargs)
    (rank world_size : Z) (w : World) (run : Outcome unit) : Prop :=
  let o := epochs_run_on D name epochs batch_size lr wd max_seq_len k kw
             rank world_size w in
  (exists head,
     forward_flags head = [] /\
     events run =
       head ++ events o
       ++ match result o with
          | inl _ => []
          | inr _ => [EvSaveModel name; EvDestroyProcessGroup]
          end) /\
  world run =
    match result o with
    | inl _ => world o
    | inr tr' =>
        mkWorld (logger_level (world o)) None (checkpoints (world o))
          (update (models (world o)) name (tr_network tr'))
    end /\
  result run =
    match result o with
    | inl e => inl e
    | inr _ => teardown_result (world o)
    end.

(** [scheduler_advanced n s s'] : the scheduler state [s'] is reached from
    [s] by [n] calls of [scheduler.step()]. *)
Inductive scheduler_advanced : nat -> SchedS -> SchedS -> Prop :=
| advanced_none (s : SchedS) : scheduler_advanced 0 s s
| advanced_once (n : nat) (s s' : SchedS) (o : OptS) :
    scheduler_advanced n s s' ->
    scheduler_advanced (S n) s (fst (scheduler_step s' o)).

(** The emitted log records, and those that report the metrics of an epoch. *)
Definition log_records (evs : list Event) : list Event := filter is_log evs.

Definition is_metrics (e : Event) : bool :=
  match e with EvLogInfo (MsgMetrics _ _) => true | _ => false end.

Definition metrics_records (evs : list Event) : nat :=
  List.length (filter is_metrics evs).

Definition is_export (e : Event) : bool :=
  match e with EvSaveModel _ => true | _ => false end.

(** How often the final model was exported. *)
Definition exports (evs : list Event) : nat :=
  List.length (filter is_export evs).

(** The positions of a batch whose expected label is not padding. *)
Definition unpadded (rows : list (list Float)) (targets : list Z)
    : list (list Float * Z) :=
  filter (fun rt => negb (snd rt =? PAD_IDX)) (combine rows targets).

(** The epoch count the checkpoint file of a model holds, if there is one. *)
Definition checkpoint_epochs (name : string) (w : World) : option Z :=
  option_map ck_epochs (checkpoints w name).

(** The checkpoint [save_checkpoint] writes for the objects [tr]. *)
Definition checkpoint_of (tr : Trainer) (epoch : Z) : Checkpoint :=
  mkCheckpoint (tr_network tr) (tr_optimizer tr) (tr_scheduler tr)
    (tr_scaler tr) epoch.

End Stages.

(* ------------------------------------------------------------------ *)
(** ** The entry point *)

Section Main.

Context {TORCH : Torch}.

(** The [training] section of the parsed arguments: the keyword arguments
    of [training_loop] other than the model's and the rank's. *)
Record TrainingArgs := mkTrainingArgs {
  arg_model_name : string;
  arg_epochs : Z;
  arg_batch_size : Z;
  arg_learning_rate : Float;
  arg_weight_decay : Float;
  arg_max_seq_len : Z;
  arg_checkpoint_interval : Z;
  arg_device : string
}.

(** [training_args["max_seq_len"] = v] (line 217). *)
Definition set_max_seq_len (a : TrainingArgs) (v : Z) : TrainingArgs :=
  mkTrainingArgs (arg_model_name a) (arg_epochs a) (arg_batch_size a)
    (arg_learning_rate a) (arg_weight_decay a) v (arg_checkpoint_interval a)
    (arg_device a).

(** The call of [training_loop] with the training section unpacked into
    its keyword arguments, next to the model's arguments, the rank and the
    world size. *)
Definition call_training_loop (a : TrainingArgs) (model_kwargs : Kwargs)
    (rank world_size : Z) : M unit :=
  training_loop (arg_model_name a) (arg_epochs a) (arg_batch_size a)
    (arg_learning_rate a) (arg_weight_decay a) (arg_max_seq_len a)
    (arg_checkpoint_interval a) (arg_device a) model_kwargs rank world_size.

(** Lines 207-208; [kwargs] is the training section joined with the entry
    [model_kwargs]. *)
Definition _training_loop_helper (rank world_size : Z)
    (kwargs : TrainingArgs * Kwargs) : M unit :=
  call_training_loop (fst kwargs) (snd kwargs) rank world_size.

(** A launched worker: the rank and world size it is given and what it
    runs. *)
Record Worker := mkWorker {
  worker_rank : Z;
  worker_world_size : Z;
  worker_run : M unit
}.

(** Lines 211-230.  The parsed arguments are the two sections
    [training_args] and [model_args]; [model_max_seq_len] is
    [model_args["max_seq_len"]] and [device_count] what
    [T.cuda.device_count()] answers.  The result lists the workers the entry
    point launches: the processes of [mp.spawn], which calls the helper with
    the process index as first argument, in the order of their index, or the
    single call of the loop with its default rank and world size.  That the
    spawned processes run side by side is not modelled. *)
Definition main (training_args : TrainingArgs) (model_args : Kwargs)
    (model_max_seq_len device_count : Z) : list Worker :=
  let training_args := set_max_seq_len training_args model_max_seq_len in
  if String.eqb (arg_device training_args) "cuda" then
    let world_size := device_count in
    map (fun i =>
           mkWorker i world_size
             (_training_loop_helper i world_size (training_args, model_args)))
        (range 0 world_size)
  else
    [mkWorker (-1) (-1) (call_training_loop training_args model_args (-1) (-1))].

(** Whether a worker is the designated reporter, and the device it runs on. *)
Definition worker_reports (wk : Worker) : bool :=
  is_main_process (worker_rank wk) (worker_world_size wk).

Definition worker_device (device : string) (wk : Worker) : Device :=
  loop_device device (worker_rank wk).

End Main.

(** Arguments for the small instance. *)
Definition toy_args (device : string) : @TrainingArgs toy :=
  @mkTrainingArgs toy "chat" 2 8 0%Q 0%Q 64 2 device.

(* ------------------------------------------------------------------ *)
(** ** Laws of the monad *)

Unset Implicit Arguments.

Section MonadLaws.

Context {TORCH : Torch}.

Lemma events_bind {A B : Type} (m : M A) (f : A -> M B) (w : World) :
  events (bind m f w) =
  events (m w) ++
  match result (m w) with
  | inr a => events (f a (world (m w)))
  | inl _ => []
  end.
Proof.
  unfold bind. destruct (result (m w)); simpl.
  - now rewrite app_nil_r.
  - reflexivity.
Qed.

Lemma result_bind {A B : Type} (m : M A) (f : A -> M B) (w : World) :
  result (bind m f w) =
  match result (m w) with
  | inr a => result (f a (world (m w)))
  | inl e => inl e
  end.
Proof. unfold bind. now destruct (result (m w)). Qed.

Lemma world_bind {A B : Type} (m : M A) (f : A -> M B) (w : World) :
  world (bind m f w) =
  match result (m w) with
  | inr a => world (f a (world (m w)))
  | inl _ => world (m w)
  end.
Proof. unfold bind. now destruct (result (m w)). Qed.

End MonadLaws.

(* ------------------------------------------------------------------ *)
(** ** One batch *)

(** Runs the straight-line part of a batch: the branch on the device and
    the results of the library calls. *)
Ltac step_batch device :=
  destruct (String.eqb (type device) "cuda");
  [ destruct (scaler_step _ _ _) as [[? ?] ?]
  | destruct (optimizer_step _ _) as [? ?] ];
  cbn; destruct (scheduler_step _ _) as [? ?].

Section BatchFacts.

Context {TORCH : Torch}.

Lemma train_batch_events name k device epoch tr mt i prompts labels w :
  events (train_batch name k device epoch (tr, mt) (i, (prompts, labels)) w) =
  batch_events (is_cuda device) (logger_level w) name epoch i k.
Proof.
  unfold train_batch, backward_and_step, batch_events, step_calls, save_events,
    py_mod, logger_info, save_checkpoint, is_cuda.
  destruct w as [lvl pg cks mds].
  step_batch device;
    destruct (k =? 0); cbn; try reflexivity;
    destruct (i mod k =? 0); cbn; try reflexivity;
    destruct lvl; reflexivity.
Qed.

Lemma train_batch_level name k device epoch st item w :
  logger_level (world (train_batch name k device epoch st item w)) =
  logger_level w.
Proof.
  destruct st as [tr mt], item as [i [prompts labels]].
  unfold train_batch, backward_and_step, py_mod, logger_info, save_checkpoint.
  destruct w as [lvl pg cks mds].
  step_batch device;
    destruct (k =? 0); cbn; try reflexivity;
    destruct (i mod k =? 0); cbn; try reflexivity;
    destruct lvl; reflexivity.
Qed.

Lemma train_batch_raises name device epoch st item w :
  result (train_batch name 0 device epoch st item w) = inl ZeroDivisionError.
Proof.
  destruct st as [tr mt], item as [i [prompts labels]].
  unfold train_batch, backward_and_step, py_mod.
  destruct w as [lvl pg cks mds].
  step_batch device; reflexivity.
Qed.

(** The accumulators after a batch, for the logits [y] the network returns. *)
Lemma train_batch_metrics name k device epoch tr mt i prompts labels w y :
  k <> 0 ->
  (forall autocast masks,
     network_call (tr_network tr) autocast prompts (all_but_last labels) masks
     = y) ->
  exists tr',
    result (train_batch name k device epoch (tr, mt) (i, (prompts, labels)) w)
    = inr (tr',
           mkMetrics
             (num_correct mt + count_correct y (all_but_first labels))
             (num_total mt + size0 prompts * size1 prompts)
             (fadd (total_loss mt)
                (criterion (view_rows y) (flatten (all_but_first labels))))).
Proof.
  intros Hk Hy.
  unfold train_batch, backward_and_step, py_mod, logger_info, save_checkpoint.
  rewrite Hy.
  destruct w as [lvl pg cks mds].
  apply Z.eqb_neq in Hk. rewrite Hk.
  step_batch device; cbn;
    destruct (i mod k =? 0); cbn; try (eexists; reflexivity);
    destruct lvl; eexists; reflexivity.
Qed.

Lemma train_batch_total name k device epoch st item w :
  k <> 0 ->
  exists st',
    result (train_batch name k device epoch st item w) = inr st' /\
    num_total (snd st') =
    num_total (snd st) + size0 (fst (snd item)) * size1 (fst (snd item)).
Proof.
  intros Hk. destruct st as [tr mt], item as [i [prompts labels]].
  unfold train_batch, backward_and_step, py_mod, logger_info, save_checkpoint.
  destruct w as [lvl pg cks mds].
  apply Z.eqb_neq in Hk. rewrite Hk.
  step_batch device; cbn;
    destruct (i mod k =? 0); cbn; try (eexists; split; reflexivity);
    destruct lvl; eexists; split; reflexivity.
Qed.

End BatchFacts.

(* ------------------------------------------------------------------ *)
(** ** The batch loop of one epoch *)

Section EpochFacts.

Context {TORCH : Torch}.

Variables (name : string) (k : Z) (device : Device) (epoch : Z).

Lemma batch_loop_ok bs : forall i0 st w,
  k <> 0 ->
  exists st',
    result (forM (enumerate_from i0 bs) (train_batch name k device epoch) st w) = inr st' /\
    num_total (snd st') = num_total (snd st) + prompt_tokens bs /\
    logger_level (world (forM (enumerate_from i0 bs) (train_batch name k device epoch) st w)) =
      logger_level w /\
    events (forM (enumerate_from i0 bs) (train_batch name k device epoch) st w) =
      loop_events (is_cuda device) (logger_level w) name epoch k i0 bs.
Proof.
  induction bs as [|b bs IH]; intros i0 st w Hk.
  - exists st. unfold prompt_tokens. cbn. repeat split. lia.
  - cbn [enumerate_from forM].
    destruct (train_batch_total name k device epoch st (i0, b) w Hk)
      as [st1 [Hr Ht]].
    destruct (IH (i0 + 1) st1
                (world (train_batch name k device epoch st (i0, b) w)) Hk) as [st' [Hr' [Ht' [Hl' He']]]].
    exists st'.
    rewrite result_bind, world_bind, events_bind.
    rewrite Hr. repeat split.
    + exact Hr'.
    + cbn [fst snd] in Ht. rewrite Ht', Ht. unfold prompt_tokens.
      cbn [fold_right]. now rewrite Z.add_assoc.
    + rewrite Hl'. apply train_batch_level.
    + rewrite He'. destruct st as [tr mt], b as [p l].
      rewrite train_batch_events.
      rewrite train_batch_level. reflexivity.
Qed.

End EpochFacts.

(* ------------------------------------------------------------------ *)
(** ** Observations ignore log records and distribute over concatenation *)

Section ObservationFacts.

Context {TORCH : Torch}.

Lemma calls_app (a b : list Event) : calls (a ++ b) = calls a ++ calls b.
Proof. apply filter_app. Qed.

Lemma calls_idem (a : list Event) : calls (calls a) = calls a.
Proof.
  unfold calls. induction a as [|e a IH]; [reflexivity|].
  cbn. destruct (is_log e) eqn:E; cbn; [exact IH|]. rewrite E. cbn.
  now rewrite IH.
Qed.

Lemma epochs_iterated_app (a b : list Event) :
  epochs_iterated (a ++ b) = epochs_iterated a ++ epochs_iterated b.
Proof. apply flat_map_app. Qed.

Lemma saves_app (a b : list Event) : saves (a ++ b) = saves a ++ saves b.
Proof. apply flat_map_app. Qed.

Lemma scheduler_steps_app (a b : list Event) :
  scheduler_steps (a ++ b) = (scheduler_steps a + scheduler_steps b)%nat.
Proof. unfold scheduler_steps. now rewrite filter_app, length_app. Qed.

Lemma batches_processed_app (a b : list Event) :
  batches_processed (a ++ b) = (batches_processed a + batches_processed b)%nat.
Proof. unfold batches_processed. now rewrite filter_app, length_app. Qed.

Lemma epochs_iterated_calls (a : list Event) :
  epochs_iterated (calls a) = epochs_iterated a.
Proof.
  unfold epochs_iterated, calls.
  induction a as [|e a IH]; [reflexivity|].
  destruct e; cbn; now rewrite ?IH.
Qed.

Lemma saves_calls (a : list Event) : saves (calls a) = saves a.
Proof.
  unfold saves, calls.
  induction a as [|e a IH]; [reflexivity|].
  destruct e; cbn; now rewrite ?IH.
Qed.

Lemma scheduler_steps_calls (a : list Event) :
  scheduler_steps (calls a) = scheduler_steps a.
Proof.
  unfold scheduler_steps, calls.
  induction a as [|e a IH]; [reflexivity|].
  destruct e; cbn; now rewrite ?IH.
Qed.

Lemma saving_batches_from_calls (a : list Event) : forall i,
  saving_batches_from i (calls a) = saving_batches_from i a.
Proof.
  unfold calls.
  induction a as [|e a IH]; intros i; [reflexivity|].
  destruct e; cbn; now rewrite ?IH.
Qed.

End ObservationFacts.

(* ------------------------------------------------------------------ *)
(** ** Ranges and enumeration *)

Lemma range_nil (lo hi : Z) : hi <= lo -> range lo hi = [].
Proof.
  intros H. unfold range. replace (Z.to_nat (hi - lo)) with 0%nat by lia.
  reflexivity.
Qed.

Lemma range_cons (lo hi : Z) : lo < hi -> range lo hi = lo :: range (lo + 1) hi.
Proof.
  intros H. unfold range.
  replace (Z.to_nat (hi - lo)) with (S (Z.to_nat (hi - (lo + 1)))) by lia.
  cbn [seq map]. f_equal; [lia|].
  rewrite <- seq_shift, map_map. apply map_ext. intros i. lia.
Qed.

Lemma range_length (lo hi : Z) : List.length (range lo hi) = Z.to_nat (hi - lo).
Proof. unfold range. now rewrite length_map, length_seq. Qed.

Lemma in_range (lo hi x : Z) : In x (range lo hi) <-> lo <= x < hi.
Proof.
  unfold range. rewrite in_map_iff. split.
  - intros [i [Hx Hi]]. apply in_seq in Hi. lia.
  - intros Hx. exists (Z.to_nat (x - lo)). split; [lia|].
    apply in_seq. lia.
Qed.

Lemma enumerate_from_fst {A : Type} (xs : list A) : forall i0,
  map fst (enumerate_from i0 xs) = range i0 (i0 + len xs).
Proof.
  induction xs as [|x xs IH]; intros i0.
  - cbn. rewrite range_nil; [reflexivity | unfold len; cbn; lia].
  - cbn [enumerate_from map fst]. rewrite IH, (range_cons i0).
    + f_equal. f_equal. unfold len. cbn [List.length]. lia.
    + unfold len. cbn [List.length]. lia.
Qed.

(* ------------------------------------------------------------------ *)
(** ** One epoch *)

Section EpochOk.

Context {TORCH : Torch}.

Lemma calls_batch_events cuda lvl name epoch i k :
  k <> 0 ->
  calls (batch_events cuda lvl name epoch i k) = batch_calls cuda name epoch i k.
Proof.
  intros Hk. apply Z.eqb_neq in Hk.
  unfold batch_events, batch_calls, save_events, step_calls. rewrite Hk.
  destruct cuda, (i mod k =? 0), lvl; reflexivity.
Qed.

Lemma calls_loop_events cuda lvl name epoch k i0 bs :
  k <> 0 ->
  calls (loop_events cuda lvl name epoch k i0 bs) =
  flat_map (fun i => batch_calls cuda name epoch i k) (range i0 (i0 + len bs)).
Proof.
  intros Hk. rewrite <- enumerate_from_fst. unfold loop_events.
  generalize (enumerate_from i0 bs) as l.
  induction l as [|ib l IH]; [reflexivity|].
  cbn [flat_map map]. rewrite calls_app, IH, calls_batch_events by exact Hk.
  reflexivity.
Qed.

Lemma prompt_tokens_nonempty (bs : list (Tokens * Tokens)) :
  prompt_tokens bs <> 0 -> len bs <> 0.
Proof. destruct bs; [now cbn | intros _; unfold len; cbn; lia]. Qed.

Lemma train_epoch_ok name k device rank world_size dataloader tr epoch w :
  k <> 0 ->
  prompt_tokens (iter_batches dataloader) <> 0 ->
  exists tr',
    result (train_epoch name k device rank world_size dataloader tr epoch w)
    = inr tr' /\
    logger_level
      (world (train_epoch name k device rank world_size dataloader tr epoch w))
    = logger_level w /\
    calls
      (events (train_epoch name k device rank world_size dataloader tr epoch w))
    = epoch_calls (is_cuda device) (is_main_process rank world_size) name k
        (List.length (iter_batches dataloader)) epoch.
Proof.
  intros Hk Hp.
  destruct (batch_loop_ok name k device epoch (iter_batches dataloader) 0
              (tr, mkMetrics 0 0 (float_of_int 0)) w Hk)
    as [[tr' mt] [Hr [Ht [Hl He]]]].
  cbn [snd num_total] in Ht.
  pose proof (prompt_tokens_nonempty _ Hp) as Hn.
  exists tr'. unfold train_epoch, enumerate.
  rewrite !result_bind, !world_bind, !events_bind. cbn [emit result world events].
  rewrite Hr, He.
  set (W := world (forM _ _ _ w)) in *.
  assert (Hz1 : (len (iter_batches dataloader) =? 0) = false)
    by now apply Z.eqb_neq.
  assert (Hz2 : (num_total mt =? 0) = false)
    by (apply Z.eqb_neq; rewrite Ht; cbn; exact Hp).
  unfold py_fdiv_int, py_truediv, logger_info. rewrite Hz1, Hz2.
  rewrite <- Hl. destruct W as [lvl pg cks mds]. cbn [logger_level].
  rewrite !calls_app, calls_loop_events by exact Hk.
  unfold epoch_calls.
  replace (Z.of_nat (List.length (iter_batches dataloader)))
    with (0 + len (iter_batches dataloader)) by reflexivity.
  destruct lvl; cbn; rewrite ?app_nil_r; repeat split; reflexivity.
Qed.

(** The calls of an epoch do not depend on whether its closing divisions
    succeed. *)
Lemma train_epoch_calls name k device rank world_size dataloader tr epoch w :
  k <> 0 ->
  calls
    (events (train_epoch name k device rank world_size dataloader tr epoch w))
  = epoch_calls (is_cuda device) (is_main_process rank world_size) name k
      (List.length (iter_batches dataloader)) epoch.
Proof.
  intros Hk.
  destruct (batch_loop_ok name k device epoch (iter_batches dataloader) 0
              (tr, mkMetrics 0 0 (float_of_int 0)) w Hk)
    as [[tr' mt] [Hr [_ [Hl He]]]].
  unfold train_epoch, enumerate.
  rewrite !events_bind. cbn [emit result world events].
  rewrite Hr, He.
  set (W := world (forM _ _ _ w)) in *.
  unfold py_fdiv_int, py_truediv, logger_info.
  rewrite <- Hl. destruct W as [lvl pg cks mds]. cbn [logger_level].
  rewrite !calls_app, calls_loop_events by exact Hk.
  unfold epoch_calls.
  replace (Z.of_nat (List.length (iter_batches dataloader)))
    with (0 + len (iter_batches dataloader)) by reflexivity.
  destruct (len (iter_batches dataloader) =? 0), (num_total mt =? 0), lvl;
    cbn; rewrite ?app_nil_r; reflexivity.
Qed.

End EpochOk.

(* ------------------------------------------------------------------ *)
(** ** The process group through the epochs *)

Section GroupFacts.

Context {TORCH : Torch}.

Lemma train_batch_group name k device epoch st item w :
  process_group (world (train_batch name k device epoch st item w)) =
  process_group w.
Proof.
  destruct st as [tr mt], item as [i [prompts labels]].
  unfold train_batch, backward_and_step, py_mod, logger_info, save_checkpoint.
  destruct w as [lvl pg cks mds].
  step_batch device;
    destruct (k =? 0); cbn; try reflexivity;
    destruct (i mod k =? 0); cbn; try reflexivity;
    destruct lvl; reflexivity.
Qed.

Lemma batch_loop_group name k device epoch bs : forall i0 st w,
  process_group
    (world (forM (enumerate_from i0 bs) (train_batch name k device epoch) st w))
  = process_group w.
Proof.
  induction bs as [|b bs IH]; intros i0 st w; [reflexivity|].
  cbn [enumerate_from forM]. rewrite world_bind.
  destruct (result _) as [e|st'].
  - apply train_batch_group.
  - rewrite IH. apply train_batch_group.
Qed.

Lemma train_epoch_group name k device rank world_size dataloader tr epoch w :
  process_group
    (world (train_epoch name k device rank world_size dataloader tr epoch w))
  = process_group w.
Proof.
  unfold train_epoch, enumerate.
  rewrite !world_bind. cbn [emit result world].
  pose proof (batch_loop_group name k device epoch (iter_batches dataloader) 0
                (tr, mkMetrics 0 0 (float_of_int 0)) w) as Hg.
  destruct (result (forM _ _ _ w)) as [e|[tr' mt]]; [exact Hg|].
  set (W := world (forM _ _ _ w)) in *.
  unfold py_fdiv_int, py_truediv, logger_info.
  destruct W as [lvl pg cks mds]. cbn [process_group] in Hg. subst pg.
  destruct (len (iter_batches dataloader) =? 0), (num_total mt =? 0), lvl;
    reflexivity.
Qed.

Lemma epochs_loop_group name k device rank world_size dataloader es :
  forall tr w,
  process_group
    (world (forM es (train_epoch name k device rank world_size dataloader) tr w))
  = process_group w.
Proof.
  induction es as [|e es IH]; intros tr w; [reflexivity|].
  cbn [forM]. rewrite world_bind.
  destruct (result _) as [x|tr'].
  - apply train_epoch_group.
  - rewrite IH. apply train_epoch_group.
Qed.

End GroupFacts.

(* ------------------------------------------------------------------ *)
(** ** A run, stage by stage *)

Section StageFacts.

Context {TORCH : Torch}.

Lemma training_loop_stages name epochs batch_size lr wd max_seq_len k device kw
    rank world_size w :
  let o := epochs_run name epochs batch_size lr wd max_seq_len k device kw
             rank world_size w in
  let run := training_loop name epochs batch_size lr wd max_seq_len k device
               kw rank world_size w in
  result run =
    match result o with
    | inl e => inl e
    | inr _ => teardown_result (world o)
    end /\
  world run =
    match result o with
    | inl _ => world o
    | inr tr' =>
        mkWorld (logger_level (world o)) None (checkpoints (world o))
          (update (models (world o)) name (tr_network tr'))
    end /\
  events run =
    setup_events name device kw rank world_size (checkpoints w name)
    ++ events o
    ++ match result o with
       | inl _ => []
       | inr _ => [EvSaveModel name; EvDestroyProcessGroup]
       end.
Proof.
  cbv zeta.
  unfold training_loop, epochs_run, setup_events, setup_world, start_trainer,
    fresh_trainer, initial_network, prepare_logger, prepare_network,
    logger_setLevel, setup_distributed, load_or_create, checkpoint_exists,
    load_checkpoint, logger_info, save_model, cleanup_distibuted,
    is_distributed, starting_epochs_of.
  destruct w as [lvl pg cks mds]. cbn [checkpoints process_group models].
  destruct (CosineAnnealingWarmRestarts
              (Adam (Network_to (with_num_embed kw vocab_len)
                       (loop_device device rank)) lr wd) 20)
    as [sched opt] eqn:Hs.
  destruct (CosineAnnealingWarmRestarts
              (Adam (DDP (Network_to (with_num_embed kw vocab_len)
                            (loop_device device rank)) [rank]) lr wd) 20)
    as [sched' opt'] eqn:Hs'.
  destruct (is_main_process rank world_size) eqn:Hm;
    destruct (negb (rank =? -1) && negb (world_size =? -1)) eqn:Hd;
    destruct (cks name) as [x|] eqn:Hx.
  all: cbv beta iota zeta delta
         [bind ret emit get_world put_world raise result world events
          logger_level process_group checkpoints models].
  all: rewrite ?Hs, ?Hs', ?Hx.
  all: cbv beta iota zeta delta
         [bind ret emit get_world put_world raise result world events
          logger_level process_group checkpoints models].
  all: rewrite ?Hx.
  all: match goal with
       | |- context [forM ?es ?f ?tr ?w0] =>
           destruct (forM es f tr w0) as [[e|tr'] [lvl' [g|] cks' mds'] evs]
       end.
  all: cbn [app]; rewrite ?app_nil_r.
  all: split; [reflexivity | split; reflexivity].
Qed.

End StageFacts.

(* ------------------------------------------------------------------ *)
(** ** The whole run *)

Section RunOk.

Context {TORCH : Torch}.

Lemma epochs_loop_ok name k device rank world_size dataloader es :
  k <> 0 ->
  prompt_tokens (iter_batches dataloader) <> 0 ->
  forall tr w,
  exists tr',
    result (forM es (train_epoch name k device rank world_size dataloader) tr w)
    = inr tr' /\
    calls
      (events
         (forM es (train_epoch name k device rank world_size dataloader) tr w))
    = flat_map
        (epoch_calls (is_cuda device) (is_main_process rank world_size) name k
           (List.length (iter_batches dataloader)))
        es.
Proof.
  intros Hk Hp. induction es as [|e es IH]; intros tr w.
  - exists tr. split; reflexivity.
  - destruct (train_epoch_ok name k device rank world_size dataloader tr e w
                Hk Hp) as [tr1 [Hr [_ Hc]]].
    destruct (IH tr1
                (world (train_epoch name k device rank world_size dataloader
                          tr e w))) as [tr' [Hr' Hc']].
    exists tr'. cbn [forM flat_map].
    rewrite result_bind, events_bind, Hr, calls_app, Hc, Hc'.
    split; [exact Hr' | reflexivity].
Qed.

Lemma ends_with_app (a b s : list Event) :
  (exists pre, b = pre ++ s) -> exists pre, a ++ b = pre ++ s.
Proof. intros [pre ->]. exists (a ++ pre). apply app_assoc. Qed.

Lemma training_loop_ok name epochs batch_size lr wd max_seq_len k device kw
    rank world_size w :
  k <> 0 ->
  prompt_tokens
    (iter_batches (loop_dataloader batch_size max_seq_len device rank world_size))
  <> 0 ->
  result (training_loop name epochs batch_size lr wd max_seq_len k device kw
            rank world_size w)
  = teardown_result (setup_world rank world_size w) /\
  calls (events (training_loop name epochs batch_size lr wd max_seq_len k
                   device kw rank world_size w))
  = run_calls (is_cuda (loop_device device rank)) name epochs k rank world_size
      (checkpoints w name)
      (List.length
         (iter_batches
            (loop_dataloader batch_size max_seq_len device rank world_size)))
  /\
  exists pre,
    events (training_loop name epochs batch_size lr wd max_seq_len k device kw
              rank world_size w)
    = pre ++ [EvSaveModel name; EvDestroyProcessGroup].
Proof.
  intros Hk Hp.
  destruct (training_loop_stages name epochs batch_size lr wd max_seq_len k
              device kw rank world_size w) as [Hr [_ He]].
  unfold epochs_run in Hr, He.
  match type of Hr with
  | context [forM ?es ?f ?tr ?w0] =>
      destruct (epochs_loop_ok name k (loop_device device rank) rank world_size
                  (loop_dataloader batch_size max_seq_len device rank
                     world_size) es Hk Hp tr w0) as [tr' [Hr' Hc']];
      pose proof (epochs_loop_group name k (loop_device device rank) rank
                    world_size
                    (loop_dataloader batch_size max_seq_len device rank
                       world_size) es tr w0) as Hg
  end.
  unfold loop_dataloader in Hr', Hc', Hg.
  rewrite Hr' in Hr, He.
  split; [|split].
  - rewrite Hr. unfold teardown_result, group_live. now rewrite Hg.
  - rewrite He, !calls_app, Hc'. unfold run_calls, setup_events, loop_dataloader.
    destruct (is_main_process rank world_size),
      (is_distributed rank world_size), (checkpoints w name); reflexivity.
  - rewrite He. rewrite app_assoc. eexists. reflexivity.
Qed.

End RunOk.

(* ------------------------------------------------------------------ *)
(** ** Observations of the calls of an epoch and of a run *)

Section CallFacts.

Context {TORCH : Torch}.

Lemma saving_batches_batch cuda name epoch i k j rest :
  saving_batches_from j (batch_calls cuda name epoch i k ++ rest) =
  (if i mod k =? 0 then [j + 1] else []) ++ saving_batches_from (j + 1) rest.
Proof.
  unfold batch_calls, step_calls.
  destruct cuda, (i mod k =? 0); reflexivity.
Qed.

Lemma saving_batches_range cuda name epoch k (n : nat) : forall i0,
  saving_batches_from (i0 - 1)
    (flat_map (fun i => batch_calls cuda name epoch i k)
       (range i0 (i0 + Z.of_nat n)))
  = filter (fun i => i mod k =? 0) (range i0 (i0 + Z.of_nat n)).
Proof.
  induction n as [|n IH]; intros i0.
  - rewrite range_nil by lia. reflexivity.
  - rewrite (range_cons i0) by lia. cbn [flat_map filter].
    rewrite saving_batches_batch.
    replace (i0 + Z.of_nat (S n)) with ((i0 + 1) + Z.of_nat n) by lia.
    replace (i0 - 1 + 1) with ((i0 + 1) - 1) by lia.
    rewrite IH. replace (i0 + 1 - 1) with i0 by lia.
    destruct (i0 mod k =? 0); reflexivity.
Qed.

Lemma saving_batches_epoch cuda main name k n epoch :
  saving_batches (epoch_calls cuda main name k n epoch) =
  filter (fun i => i mod k =? 0) (range 0 (Z.of_nat n)).
Proof.
  unfold saving_batches, epoch_calls. cbn [saving_batches_from].
  apply (saving_batches_range cuda name epoch k n 0).
Qed.

Lemma scheduler_steps_batch cuda name epoch i k :
  scheduler_steps (batch_calls cuda name epoch i k) = 1%nat.
Proof.
  unfold batch_calls, step_calls. destruct cuda, (i mod k =? 0); reflexivity.
Qed.

Lemma scheduler_steps_batches cuda name epoch k (l : list Z) :
  scheduler_steps (flat_map (fun i => batch_calls cuda name epoch i k) l) =
  List.length l.
Proof.
  induction l as [|i l IH]; [reflexivity|].
  cbn [flat_map]. rewrite scheduler_steps_app, scheduler_steps_batch, IH.
  reflexivity.
Qed.

Lemma scheduler_steps_epoch cuda main name k n epoch :
  scheduler_steps (epoch_calls cuda main name k n epoch) = n.
Proof.
  unfold epoch_calls.
  change (EvTqdm epoch (negb main) :: ?l) with ([EvTqdm epoch (negb main)] ++ l).
  rewrite scheduler_steps_app, scheduler_steps_batches, range_length.
  cbn. lia.
Qed.

Lemma epochs_iterated_batch cuda name epoch i k :
  epochs_iterated (batch_calls cuda name epoch i k) = [].
Proof.
  unfold batch_calls, step_calls. destruct cuda, (i mod k =? 0); reflexivity.
Qed.

Lemma epochs_iterated_epoch cuda main name k n epoch :
  epochs_iterated (epoch_calls cuda main name k n epoch) = [epoch].
Proof.
  unfold epoch_calls. cbn [epochs_iterated flat_map app]. f_equal.
  induction (range 0 (Z.of_nat n)) as [|i l IH]; [reflexivity|].
  cbn [flat_map].
  change (flat_map _ (?a ++ ?b)) with (epochs_iterated (a ++ b)).
  rewrite epochs_iterated_app, epochs_iterated_batch. exact IH.
Qed.

Lemma epochs_iterated_epochs cuda main name k n es :
  epochs_iterated (flat_map (epoch_calls cuda main name k n) es) = es.
Proof.
  induction es as [|e es IH]; [reflexivity|].
  cbn [flat_map]. rewrite epochs_iterated_app, epochs_iterated_epoch, IH.
  reflexivity.
Qed.

(** The saves of one epoch over [n] batches. *)
Lemma saves_batch cuda name epoch i k :
  saves (batch_calls cuda name epoch i k) =
  if i mod k =? 0 then [(name, epoch)] else [].
Proof.
  unfold batch_calls, step_calls. destruct cuda, (i mod k =? 0); reflexivity.
Qed.

Lemma saves_epoch cuda main name k n epoch :
  saves (epoch_calls cuda main name k n epoch) =
  map (fun _ => (name, epoch))
    (filter (fun i => i mod k =? 0) (range 0 (Z.of_nat n))).
Proof.
  unfold epoch_calls. cbn [saves flat_map app].
  induction (range 0 (Z.of_nat n)) as [|i l IH]; [reflexivity|].
  cbn [flat_map filter].
  change (flat_map _ (?a ++ ?b)) with (saves (a ++ b)).
  rewrite saves_app, saves_batch.
  destruct (i mod k =? 0); cbn [map app]; f_equal; exact IH.
Qed.

Lemma saves_epochs cuda main name k n es :
  saves (flat_map (epoch_calls cuda main name k n) es) =
  flat_map
    (fun e => map (fun _ => (name, e))
                (filter (fun i => i mod k =? 0) (range 0 (Z.of_nat n))))
    es.
Proof.
  induction es as [|e es IH]; [reflexivity|].
  cbn [flat_map]. rewrite saves_app, saves_epoch, IH. reflexivity.
Qed.

Lemma count_calls (p : Event -> bool) (a : list Event) :
  (forall m, p (EvLogInfo m) = false) ->
  List.length (filter p (calls a)) = List.length (filter p a).
Proof.
  intros Hp. unfold calls.
  induction a as [|e a IH]; [reflexivity|].
  destruct e; cbn [filter is_log negb]; try rewrite Hp;
    try (destruct (p _); cbn [List.length]; now rewrite IH).
  exact IH.
Qed.

Lemma count_flat_map_zero {A : Type} (p : Event -> bool)
    (f : A -> list Event) (l : list A) :
  (forall x, List.length (filter p (f x)) = 0%nat) ->
  List.length (filter p (flat_map f l)) = 0%nat.
Proof.
  intros Hf. induction l as [|x l IH]; [reflexivity|].
  cbn [flat_map]. now rewrite filter_app, length_app, Hf, IH.
Qed.

Lemma group_inits_epochs cuda main name k n es :
  group_inits (flat_map (epoch_calls cuda main name k n) es) = 0%nat.
Proof.
  apply count_flat_map_zero. intros e. unfold epoch_calls.
  cbn [filter is_group_init]. apply count_flat_map_zero. intros i.
  unfold batch_calls, step_calls. destruct cuda, (i mod k =? 0); reflexivity.
Qed.

Lemma group_teardowns_epochs cuda main name k n es :
  group_teardowns (flat_map (epoch_calls cuda main name k n) es) = 0%nat.
Proof.
  apply count_flat_map_zero. intros e. unfold epoch_calls.
  cbn [filter is_group_teardown]. apply count_flat_map_zero. intros i.
  unfold batch_calls, step_calls. destruct cuda, (i mod k =? 0); reflexivity.
Qed.

Lemma group_inits_run cuda name epochs k rank world_size ck n :
  group_inits (run_calls cuda name epochs k rank world_size ck n) =
  if is_distributed rank world_size then 1%nat else 0%nat.
Proof.
  unfold run_calls, group_inits.
  rewrite !filter_app, !length_app.
  fold (group_inits
          (flat_map
             (epoch_calls cuda (is_main_process rank world_size) name k n)
             (range (starting_epochs_of ck + 1)
                (starting_epochs_of ck + epochs + 1)))).
  rewrite group_inits_epochs.
  destruct (is_distributed rank world_size), ck; reflexivity.
Qed.

Lemma group_teardowns_run cuda name epochs k rank world_size ck n :
  group_teardowns (run_calls cuda name epochs k rank world_size ck n) = 1%nat.
Proof.
  unfold run_calls, group_teardowns.
  rewrite !filter_app, !length_app.
  fold (group_teardowns
          (flat_map
             (epoch_calls cuda (is_main_process rank world_size) name k n)
             (range (starting_epochs_of ck + 1)
                (starting_epochs_of ck + epochs + 1)))).
  rewrite group_teardowns_epochs.
  destruct (is_distributed rank world_size), ck; reflexivity.
Qed.

Lemma epochs_iterated_run cuda name epochs k rank world_size ck n :
  epochs_iterated (run_calls cuda name epochs k rank world_size ck n) =
  range (starting_epochs_of ck + 1) (starting_epochs_of ck + epochs + 1).
Proof.
  unfold run_calls.
  rewrite !epochs_iterated_app, epochs_iterated_epochs.
  destruct (is_distributed rank world_size), ck; cbn; now rewrite app_nil_r.
Qed.

Lemma saves_run cuda name epochs k rank world_size ck n :
  saves (run_calls cuda name epochs k rank world_size ck n) =
  flat_map
    (fun e => map (fun _ => (name, e))
                (filter (fun i => i mod k =? 0) (range 0 (Z.of_nat n))))
    (range (starting_epochs_of ck + 1) (starting_epochs_of ck + epochs + 1)).
Proof.
  unfold run_calls.
  rewrite !saves_app, saves_epochs.
  destruct (is_distributed rank world_size), ck; cbn; now rewrite app_nil_r.
Qed.

End CallFacts.

(* ------------------------------------------------------------------ *)
(** ** Scheduler steps against forward passes, whatever the outcome *)

Section StepsPerBatch.

Context {TORCH : Torch}.

Lemma batch_events_steps cuda lvl name epoch i k :
  scheduler_steps (batch_events cuda lvl name epoch i k) = 1%nat /\
  batches_processed (batch_events cuda lvl name epoch i k) = 1%nat.
Proof.
  unfold batch_events, step_calls, save_events.
  destruct cuda, (k =? 0), (i mod k =? 0), lvl; split; reflexivity.
Qed.

Lemma batch_loop_steps name k device epoch bs : forall i0 st w,
  scheduler_steps
    (events (forM (enumerate_from i0 bs) (train_batch name k device epoch) st w))
  = batches_processed
      (events
         (forM (enumerate_from i0 bs) (train_batch name k device epoch) st w)).
Proof.
  induction bs as [|b bs IH]; intros i0 st w; [reflexivity|].
  cbn [enumerate_from forM]. rewrite events_bind.
  rewrite scheduler_steps_app, batches_processed_app.
  destruct st as [tr mt], b as [p l]. rewrite train_batch_events.
  destruct (batch_events_steps (is_cuda device) (logger_level w) name epoch
              i0 k) as [-> ->].
  destruct (result _) as [e|st']; [reflexivity|].
  now rewrite IH.
Qed.

Lemma train_epoch_steps name k device rank world_size dataloader tr epoch w :
  scheduler_steps
    (events (train_epoch name k device rank world_size dataloader tr epoch w))
  = batches_processed
      (events (train_epoch name k device rank world_size dataloader tr epoch w)).
Proof.
  unfold train_epoch, enumerate.
  rewrite !events_bind. cbn [emit result world events].
  rewrite !scheduler_steps_app, !batches_processed_app, batch_loop_steps.
  destruct (result (forM _ _ _ w)) as [e|[tr' mt]]; [reflexivity|].
  set (W := world (forM _ _ _ w)).
  unfold py_fdiv_int, py_truediv, logger_info.
  destruct W as [lvl pg cks mds].
  destruct (len (iter_batches dataloader) =? 0), (num_total mt =? 0), lvl;
    reflexivity.
Qed.

End StepsPerBatch.

(* ------------------------------------------------------------------ *)
(** ** The states after a batch and after an epoch *)

Section StateFacts.

Context {TORCH : Torch}.

(** What lines 176-182 leave, on an accelerator and elsewhere. *)
Lemma backward_and_step_result device tr prompts labels w :
  result (backward_and_step device tr prompts labels w) =
  inr (if String.eqb (type device) "cuda" then
         let r :=
           scaler_step (tr_scaler tr) (tr_optimizer tr)
             (scaled_backward (tr_scaler tr) (tr_network tr) prompts labels) in
         mkTrainer (snd r) (snd (fst r)) (tr_scheduler tr)
           (scaler_update (fst (fst r)))
       else
         let r :=
           optimizer_step (tr_optimizer tr)
             (loss_backward (tr_network tr) prompts labels) in
         mkTrainer (snd r) (fst r) (tr_scheduler tr) (tr_scaler tr)).
Proof.
  unfold backward_and_step.
  destruct (String.eqb (type device) "cuda"); cbv zeta.
  - destruct (scaler_step _ _ _) as [[s2 o2] n2]. reflexivity.
  - destruct (optimizer_step _ _) as [o2 n2]. reflexivity.
Qed.

(** The objects a batch returns: those of the backward pass and step, with
    the gradients cleared and then the scheduler stepped once. *)
Lemma train_batch_state name k device epoch tr mt i prompts labels w :
  k <> 0 ->
  exists tr1 mt',
    result (backward_and_step device tr prompts labels w) = inr tr1 /\
    result (train_batch name k device epoch (tr, mt) (i, (prompts, labels)) w)
    = inr (mkTrainer
             (zero_grad (tr_optimizer tr1) (tr_network tr1))
             (snd (scheduler_step (tr_scheduler tr) (tr_optimizer tr1)))
             (fst (scheduler_step (tr_scheduler tr) (tr_optimizer tr1)))
             (tr_scaler tr1),
           mt').
Proof.
  intros Hk. apply Z.eqb_neq in Hk.
  unfold train_batch, backward_and_step, py_mod, logger_info, save_checkpoint.
  rewrite Hk. destruct w as [lvl pg cks mds].
  destruct (String.eqb (type device) "cuda");
    [ destruct (scaler_step _ _ _) as [[s2 o2] n2]
    | destruct (optimizer_step _ _) as [o2 n2] ];
    cbn; destruct (scheduler_step _ _) as [s3 o3] eqn:Hs;
    cbn; destruct (i mod k =? 0), lvl; cbn;
    do 2 eexists; (split; [reflexivity|]); cbn; rewrite Hs; reflexivity.
Qed.

Lemma advanced_prepend n : forall s o s',
  scheduler_advanced n (fst (scheduler_step s o)) s' ->
  scheduler_advanced (S n) s s'.
Proof.
  induction n as [|n IH]; intros s o s' H; inversion H; subst.
  - apply advanced_once. apply advanced_none.
  - apply advanced_once. eapply IH. eassumption.
Qed.

Lemma batch_loop_advanced name k device epoch bs :
  k <> 0 ->
  forall i0 tr mt w,
  exists tr' mt',
    result (forM (enumerate_from i0 bs) (train_batch name k device epoch)
              (tr, mt) w) = inr (tr', mt') /\
    scheduler_advanced (List.length bs) (tr_scheduler tr) (tr_scheduler tr').
Proof.
  intros Hk. induction bs as [|[p l] bs IH]; intros i0 tr mt w.
  - exists tr, mt. split; [reflexivity | apply advanced_none].
  - cbn [enumerate_from forM List.length].
    destruct (train_batch_state name k device epoch tr mt i0 p l w Hk)
      as [tr1 [mt1 [_ Hr]]].
    rewrite result_bind, Hr.
    match goal with
    | |- context [forM _ _ (?t, _) ?w0] =>
        destruct (IH (i0 + 1) t mt1 w0) as [tr' [mt' [Hr' Ha]]]
    end.
    exists tr', mt'. split; [exact Hr'|].
    cbn [tr_scheduler] in Ha. eapply advanced_prepend. exact Ha.
Qed.

Lemma train_epoch_result name k device rank world_size dataloader tr epoch w
    tr' mt :
  k <> 0 ->
  prompt_tokens (iter_batches dataloader) <> 0 ->
  result
    (forM (enumerate (iter_batches dataloader))
       (train_batch name k device epoch)
       (tr, mkMetrics 0 0 (float_of_int 0)) w) = inr (tr', mt) ->
  result (train_epoch name k device rank world_size dataloader tr epoch w)
  = inr tr'.
Proof.
  intros Hk Hp Hr.
  destruct (batch_loop_ok name k device epoch (iter_batches dataloader) 0
              (tr, mkMetrics 0 0 (float_of_int 0)) w Hk)
    as [st' [Hr' [Ht [Hl _]]]].
  unfold enumerate in Hr. rewrite Hr in Hr'. injection Hr' as <-.
  cbn [snd num_total] in Ht.
  pose proof (prompt_tokens_nonempty _ Hp) as Hn.
  unfold train_epoch, enumerate.
  rewrite !result_bind. cbn [emit result world].
  rewrite Hr.
  assert (Hz1 : (len (iter_batches dataloader) =? 0) = false)
    by now apply Z.eqb_neq.
  assert (Hz2 : (num_total mt =? 0) = false)
    by (apply Z.eqb_neq; rewrite Ht; cbn; exact Hp).
  unfold py_fdiv_int, py_truediv, logger_info. rewrite Hz1, Hz2.
  destruct (world _) as [lvl pg cks mds]. destruct lvl; reflexivity.
Qed.

End StateFacts.

(* ------------------------------------------------------------------ *)
(** ** The designated reporter, the length caps and the device *)

(** C4: the designated-reporter predicate holds exactly for the pair
    [(-1, -1)] and for rank [0] with a positive world size; it is false for
    every other pair. *)
Theorem is_main_process_iff (rank world_size : Z) :
  is_main_process rank world_size = true <->
  (rank = -1 /\ world_size = -1) \/ (rank = 0 /\ world_size > 0).
Proof.
  unfold is_main_process.
  rewrite orb_true_iff, !andb_true_iff, !Z.eqb_eq, Z.gtb_gt. reflexivity.
Qed.

(** C7: the data pipeline caps sentences at [max_seq_len // 4] (floor
    division) and passages at [max_seq_len], and constructs the dataset with
    these two caps; a maximum sequence length of 16 gives the caps 4 and 16. *)
Theorem prepare_dataloader_caps (batch_size max_seq_len rank world_size : Z)
    (tf ttf : option Device) :
  let ds := dataset (prepare_dataloader batch_size max_seq_len rank world_size
                       tf ttf) in
  max_sentence_length ds = max_seq_len / 4 /\
  4 * max_sentence_length ds <= max_seq_len < 4 * max_sentence_length ds + 4 /\
  max_context_length ds = max_seq_len /\
  dataset (prepare_dataloader batch_size 16 rank world_size tf ttf)
  = mkDataset 16 4 tf ttf.
Proof.
  unfold prepare_dataloader. cbv zeta. cbn [dataset max_sentence_length
    max_context_length].
  pose proof (Z.mul_div_le max_seq_len 4).
  pose proof (Z.mul_succ_div_gt max_seq_len 4).
  repeat split; lia.
Qed.

Lemma split_colon_cuda (s : string) :
  split_colon ("cuda:" ++ s)%string = ("cuda"%string, Some s).
Proof. reflexivity. Qed.

Section DeviceFacts.

Context {TORCH : Torch}.

Lemma loop_device_cuda (device : string) (rank : Z) :
  (rank =? -1) = false ->
  loop_device device rank = mkDevice "cuda" (Some (str rank)).
Proof.
  intros Hr. unfold loop_device, T_device. rewrite Hr. cbn [negb].
  now rewrite split_colon_cuda.
Qed.

Lemma device_index_not_single (rank : Z) :
  device_index_ok rank = true -> (rank =? -1) = false.
Proof.
  unfold device_index_ok. intros H. apply andb_prop in H as [H _].
  apply Z.eqb_neq. apply Z.leb_le in H. lia.
Qed.

Lemma forward_flags_app (a b : list Event) :
  forward_flags (a ++ b) = forward_flags a ++ forward_flags b.
Proof. apply flat_map_app. Qed.

Lemma batch_events_flags cuda lvl name epoch i k :
  forward_flags (batch_events cuda lvl name epoch i k) = [cuda].
Proof.
  unfold batch_events, step_calls, save_events.
  destruct cuda, (k =? 0), (i mod k =? 0), lvl; reflexivity.
Qed.

Lemma batch_loop_flags name k device epoch bs : forall i0 st w,
  Forall (fun a => a = is_cuda device)
    (forward_flags
       (events
          (forM (enumerate_from i0 bs) (train_batch name k device epoch) st w))).
Proof.
  induction bs as [|b bs IH]; intros i0 st w; [constructor|].
  cbn [enumerate_from forM]. rewrite events_bind, forward_flags_app.
  apply Forall_app. split.
  - destruct st as [tr mt], b as [p l].
    rewrite train_batch_events, batch_events_flags.
    constructor; [reflexivity | constructor].
  - destruct (result _) as [e|st']; [constructor | apply IH].
Qed.

Lemma train_epoch_flags name k device rank world_size dataloader tr epoch w :
  Forall (fun a => a = is_cuda device)
    (forward_flags
       (events (train_epoch name k device rank world_size dataloader tr epoch w))).
Proof.
  unfold train_epoch, enumerate.
  rewrite !events_bind. cbn [emit result world events].
  rewrite !forward_flags_app. cbn [forward_flags flat_map app].
  apply Forall_app. split; [apply batch_loop_flags|].
  destruct (result (forM _ _ _ w)) as [e|[tr' mt]]; [constructor|].
  set (W := world (forM _ _ _ w)).
  unfold py_fdiv_int, py_truediv, logger_info.
  destruct W as [lvl pg cks mds].
  destruct (len (iter_batches dataloader) =? 0), (num_total mt =? 0), lvl;
    constructor.
Qed.

Lemma epochs_loop_flags name k device rank world_size dataloader es :
  forall tr w,
  Forall (fun a => a = is_cuda device)
    (forward_flags
       (events
          (forM es (train_epoch name k device rank world_size dataloader) tr w))).
Proof.
  induction es as [|e es IH]; intros tr w; [constructor|].
  cbn [forM]. rewrite events_bind, forward_flags_app.
  apply Forall_app. split; [apply train_epoch_flags|].
  destruct (result _) as [x|tr']; [constructor | apply IH].
Qed.

Lemma setup_events_flags name device kw rank world_size ck :
  forward_flags (setup_events name device kw rank world_size ck) = [].
Proof.
  unfold setup_events.
  destruct (is_distributed rank world_size), (is_main_process rank world_size),
    ck; reflexivity.
Qed.

(** The stages of a run are those of a run on the device of line 100. *)
Lemma epochs_run_on_loop_device name epochs batch_size lr wd max_seq_len k
    device kw rank world_size w :
  epochs_run name epochs batch_size lr wd max_seq_len k device kw rank
    world_size w
  = epochs_run_on (loop_device device rank) name epochs batch_size lr wd
      max_seq_len k kw rank world_size w.
Proof.
  unfold epochs_run, epochs_run_on, start_trainer, start_trainer_on,
    fresh_trainer, initial_network, initial_network_on.
  reflexivity.
Qed.

Lemma training_loop_carried_out name epochs batch_size lr wd max_seq_len k
    device kw rank world_size w :
  carried_out_on (loop_device device rank) name epochs batch_size lr wd
    max_seq_len k kw rank world_size w
    (training_loop name epochs batch_size lr wd max_seq_len k device kw rank
       world_size w).
Proof.
  destruct (training_loop_stages name epochs batch_size lr wd max_seq_len k
              device kw rank world_size w) as [Hr [Hw He]].
  rewrite epochs_run_on_loop_device in Hr, Hw, He.
  unfold carried_out_on. split; [|split; [exact Hw | exact Hr]].
  exists (setup_events name device kw rank world_size (checkpoints w name)).
  split; [apply setup_events_flags | exact He].
Qed.

Lemma training_loop_flags name epochs batch_size lr wd max_seq_len k
    device kw rank world_size w :
  Forall (fun a => a = is_cuda (loop_device device rank))
    (forward_flags
       (events
          (training_loop name epochs batch_size lr wd max_seq_len k device kw
             rank world_size w))).
Proof.
  destruct (training_loop_stages name epochs batch_size lr wd max_seq_len k
              device kw rank world_size w) as [_ [_ He]].
  rewrite He, !forward_flags_app, setup_events_flags. cbn [app].
  apply Forall_app. split; [apply epochs_loop_flags|].
  destruct (result _); constructor.
Qed.

(** C10: a run with a rank other than -1 (a rank the library takes as a
    device ordinal) is carried out on the device [cuda:rank], whatever
    device string was configured: its network is placed there, its loader
    places the tensors there, every epoch and batch runs there and every
    forward pass runs under autocast, so that two runs that differ in the
    configured device only are the same run.  A run with rank -1 is carried
    out on the configured device, and its forward passes run under autocast
    exactly when that device is of kind cuda. *)
Theorem loop_device_by_rank (name : string)
    (epochs batch_size : Z) (lr wd : Float) (max_seq_len k : Z)
    (device device' : string) (kw : Kwargs) (rank world_size : Z) (w : World) :
  let run :=
    training_loop name epochs batch_size lr wd max_seq_len k device kw
      rank world_size w in
  (device_index_ok rank = true ->
     loop_device device rank = mkDevice "cuda" (Some (str rank)) /\
     carried_out_on (mkDevice "cuda" (Some (str rank))) name epochs batch_size
       lr wd max_seq_len k kw rank world_size w run /\
     Forall (fun a => a = true) (forward_flags (events run)) /\
     run = training_loop name epochs batch_size lr wd max_seq_len k device' kw
             rank world_size w) /\
  (rank = -1 ->
   device_string_ok device = true ->
     loop_device device rank = T_device device /\
     carried_out_on (T_device device) name epochs batch_size lr wd max_seq_len
       k kw rank world_size w run /\
     Forall (fun a => a = is_cuda (T_device device))
       (forward_flags (events run))).
Proof.
  intros run. split.
  - intros Hi. apply device_index_not_single in Hi.
    pose proof (loop_device_cuda device rank Hi) as Hd.
    pose proof (training_loop_carried_out name epochs batch_size lr wd
                  max_seq_len k device kw rank world_size w) as Hc.
    pose proof (training_loop_flags name epochs batch_size lr wd max_seq_len k
                  device kw rank world_size w) as Hf.
    fold run in Hc, Hf. rewrite Hd in Hc, Hf.
    split; [exact Hd|]. split; [exact Hc|]. split; [exact Hf|].
    unfold run, training_loop.
    now rewrite Hd, (loop_device_cuda device' rank Hi).
  - intros -> _.
    split; [reflexivity|]. split.
    + exact (training_loop_carried_out name epochs batch_size lr wd
               max_seq_len k device kw (-1) world_size w).
    + exact (training_loop_flags name epochs batch_size lr wd max_seq_len k
               device kw (-1) world_size w).
Qed.

End DeviceFacts.

Lemma loop_device_by_rank_witness :
  loop_device "cpu" 3 = mkDevice "cuda" (Some "3"%string) /\
  Forall (fun a => a = true)
    (forward_flags
       (events
          (@training_loop toy "chat" 2 8 0%Q 0%Q 16 2 "cpu" tt 3 4
             (toy_world None)))) /\
  Forall (fun a => a = false)
    (forward_flags
       (events
          (@training_loop toy "chat" 2 8 0%Q 0%Q 16 2 "cpu" tt (-1) (-1)
             (toy_world None)))).
Proof.
  pose proof (@loop_device_by_rank toy "chat" 2 8 0%Q 0%Q 16 2 "cpu" "cuda" tt
                3 4 (toy_world None)) as W.
  cbv zeta in W. destruct W as [W _].
  destruct (W eq_refl) as [D [_ [F _]]].
  pose proof (@loop_device_by_rank toy "chat" 2 8 0%Q 0%Q 16 2 "cpu" "cuda" tt
                (-1) (-1) (toy_world None)) as V.
  cbv zeta in V. destruct V as [_ V].
  destruct (V eq_refl eq_refl) as [_ [_ G]].
  split; [exact D | split; [exact F | exact G]].
Defined.

(* ------------------------------------------------------------------ *)
(** ** The batch step *)

Section BatchClaims.

Context {TORCH : Torch}.

(** C6: on a cuda device the batch runs its forward pass under autocast,
    then the backward pass on the scaled loss, the optimizer step through
    the scaler and the update of the scale factor, and neither a plain
    backward pass nor a plain optimizer step: the scaler it returns is the
    updated one the scaler's step left, the network the one that step left,
    with its gradients cleared.  On any other device it runs the plain
    backward pass and optimizer step and calls the scaler not at all: the
    scaler is returned as it was, the network is the one the optimizer's
    step left, with its gradients cleared.  On both the gradients are
    cleared after the step and before the scheduler advances, on the
    optimizer the step left. *)
Theorem backward_pass_by_device (name : string) (k : Z) (device : Device)
    (epoch : Z) (tr : Trainer) (mt : Metrics) (i : Z) (prompts labels : Tokens)
    (w : World) :
  let o := train_batch name k device epoch (tr, mt) (i, (prompts, labels)) w in
  let evs := events o in
  (type device = "cuda"%string ->
     firstn 6 evs =
       [EvForward true; EvScaledBackward; EvScalerStep; EvScalerUpdate;
        EvZeroGrad; EvSchedulerStep] /\
     ~ In EvBackward evs /\ ~ In EvOptimizerStep evs /\
     (k <> 0 ->
      let r :=
        scaler_step (tr_scaler tr) (tr_optimizer tr)
          (scaled_backward (tr_scaler tr) (tr_network tr) prompts labels) in
      exists tr' mt',
        result o = inr (tr', mt') /\
        tr_scaler tr' = scaler_update (fst (fst r)) /\
        tr_network tr' = zero_grad (snd (fst r)) (snd r) /\
        tr_optimizer tr' =
          snd (scheduler_step (tr_scheduler tr) (snd (fst r))))) /\
  (type device <> "cuda"%string ->
     firstn 5 evs =
       [EvForward false; EvBackward; EvOptimizerStep; EvZeroGrad;
        EvSchedulerStep] /\
     ~ In EvScaledBackward evs /\ ~ In EvScalerStep evs /\
     ~ In EvScalerUpdate evs /\
     (exists tr1,
        result (backward_and_step device tr prompts labels w) = inr tr1 /\
        tr_scaler tr1 = tr_scaler tr) /\
     (k <> 0 ->
      let r :=
        optimizer_step (tr_optimizer tr)
          (loss_backward (tr_network tr) prompts labels) in
      exists tr' mt',
        result o = inr (tr', mt') /\
        tr_scaler tr' = tr_scaler tr /\
        tr_network tr' = zero_grad (fst r) (snd r) /\
        tr_optimizer tr' = snd (scheduler_step (tr_scheduler tr) (fst r)))).
Proof.
  cbv zeta. rewrite train_batch_events.
  unfold batch_events, step_calls, save_events, is_cuda. split.
  - intros Hc. apply String.eqb_eq in Hc. rewrite Hc.
    split; [|split; [|split]];
      try (destruct (k =? 0), (i mod k =? 0), (logger_level w); cbn;
           intuition discriminate).
    intros Hk.
    destruct (train_batch_state name k device epoch tr mt i prompts labels w
                Hk) as [tr1 [mt' [H1 H2]]].
    rewrite backward_and_step_result, Hc in H1. injection H1 as <-.
    eexists. eexists. split; [exact H2|]. cbn. repeat split.
  - intros Hc. apply String.eqb_neq in Hc. rewrite Hc.
    split; [|split; [|split; [|split; [|split]]]];
      try (destruct (k =? 0), (i mod k =? 0), (logger_level w); cbn;
           intuition discriminate).
    + rewrite backward_and_step_result, Hc. eexists. split; reflexivity.
    + intros Hk.
      destruct (train_batch_state name k device epoch tr mt i prompts labels w
                  Hk) as [tr1 [mt' [H1 H2]]].
      rewrite backward_and_step_result, Hc in H1. injection H1 as <-.
      eexists. eexists. split; [exact H2|]. cbn. repeat split.
Qed.

End BatchClaims.

Lemma backward_pass_by_device_witness :
  firstn 6
    (events
       (@train_batch toy "chat" 2 (T_device "cuda:0") 1
          (toy_trainer, @mkMetrics toy 0 0 0%Q) (0, (toy_prompts, toy_labels))
          (toy_world None)))
  = [EvForward true; EvScaledBackward; EvScalerStep; EvScalerUpdate;
     EvZeroGrad; EvSchedulerStep] /\
  firstn 5
    (events
       (@train_batch toy "chat" 2 (T_device "cpu") 1
          (toy_trainer, @mkMetrics toy 0 0 0%Q) (0, (toy_prompts, toy_labels))
          (toy_world None)))
  = [EvForward false; EvBackward; EvOptimizerStep; EvZeroGrad;
     EvSchedulerStep] /\
  exists tr' mt',
    result
      (@train_batch toy "chat" 2 (T_device "cuda:0") 1
         (toy_trainer, @mkMetrics toy 0 0 0%Q) (0, (toy_prompts, toy_labels))
         (toy_world None))
    = inr (tr', mt') /\
    @tr_scaler toy tr' = 1%nat.
Proof.
  pose proof (@backward_pass_by_device toy "chat" 2 (T_device "cuda:0") 1
                toy_trainer (@mkMetrics toy 0 0 0%Q) 0 toy_prompts toy_labels
                (toy_world None)) as W.
  pose proof (@backward_pass_by_device toy "chat" 2 (T_device "cpu") 1
                toy_trainer (@mkMetrics toy 0 0 0%Q) 0 toy_prompts toy_labels
                (toy_world None)) as V.
  cbv zeta in W, V.
  destruct W as [W _]. destruct (W eq_refl) as [E1 [_ [_ S1]]].
  destruct V as [_ V]. destruct (V ltac:(discriminate)) as [E2 _].
  destruct (S1 ltac:(lia)) as [tr' [mt' [R [Sc _]]]].
  split; [exact E1 | split; [exact E2|]].
  exists tr', mt'. split; [exact R | exact Sc].
Defined.

(* ------------------------------------------------------------------ *)
(** ** One epoch: checkpoint interval and scheduler cadence *)

Section EpochClaims.

Context {TORCH : Torch}.

(** C3: within an epoch and for a checkpoint interval [k > 0], the batches
    in which a checkpoint is saved are exactly those whose zero-based index
    is a multiple of [k], in order, and no others. *)
Theorem checkpoint_interval_triggering (name : string) (k : Z)
    (device : Device) (rank world_size : Z) (dataloader : DataLoader)
    (tr : Trainer) (epoch : Z) (w : World) :
  0 < k ->
  let evs :=
    events (train_epoch name k device rank world_size dataloader tr epoch w) in
  saving_batches evs =
    filter (fun i => i mod k =? 0) (range 0 (len (iter_batches dataloader))) /\
  forall i,
    In i (saving_batches evs) <->
    0 <= i < len (iter_batches dataloader) /\ (k | i).
Proof.
  intros Hk evs.
  assert (He : saving_batches evs =
               filter (fun i => i mod k =? 0)
                 (range 0 (len (iter_batches dataloader)))).
  { unfold evs, saving_batches.
    rewrite <- saving_batches_from_calls, train_epoch_calls by lia.
    exact (saving_batches_epoch _ _ _ _ _ _). }
  split; [exact He|].
  intros i. rewrite He, filter_In, in_range, Z.eqb_eq.
  rewrite (Z.mod_divide i k) by lia. reflexivity.
Qed.

(** C5: the scheduler is stepped once for each batch whose forward pass was
    run; an epoch over [B] batches steps it [B] times, and the scheduler
    state the epoch returns is the one reached from the state it started
    with by [B] steps. *)
Theorem scheduler_once_per_batch (name : string) (k : Z) (device : Device)
    (rank world_size : Z) (dataloader : DataLoader) (tr : Trainer) (epoch : Z)
    (w : World) :
  let o := train_epoch name k device rank world_size dataloader tr epoch w in
  let evs := events o in
  scheduler_steps evs = batches_processed evs /\
  (k <> 0 -> scheduler_steps evs = List.length (iter_batches dataloader)) /\
  (k <> 0 ->
   prompt_tokens (iter_batches dataloader) <> 0 ->
   exists tr',
     result o = inr tr' /\
     scheduler_advanced (List.length (iter_batches dataloader))
       (tr_scheduler tr) (tr_scheduler tr')).
Proof.
  cbv zeta. split; [apply train_epoch_steps|]. split.
  - intros Hk.
    rewrite <- scheduler_steps_calls, train_epoch_calls by exact Hk.
    apply scheduler_steps_epoch.
  - intros Hk Hp.
    destruct (batch_loop_advanced name k device epoch (iter_batches dataloader)
                Hk 0 tr (mkMetrics 0 0 (float_of_int 0)) w)
      as [tr' [mt' [Hr Ha]]].
    exists tr'. split; [|exact Ha].
    eapply train_epoch_result; eassumption.
Qed.

End EpochClaims.

Lemma checkpoint_interval_triggering_witness :
  saving_batches
    (events
       (@train_epoch toy "chat" 2 (T_device "cpu") (-1) (-1)
          (loop_dataloader 8 16 "cpu" (-1) (-1)) toy_trainer 1
          (toy_world None)))
  = [0; 2].
Proof.
  pose proof (@checkpoint_interval_triggering toy "chat" 2 (T_device "cpu")
                (-1) (-1) (loop_dataloader 8 16 "cpu" (-1) (-1)) toy_trainer 1
                (toy_world None) ltac:(lia)) as W.
  cbv zeta in W. destruct W as [W _]. rewrite W. reflexivity.
Defined.

Lemma scheduler_once_per_batch_witness :
  scheduler_steps
    (events
       (@train_epoch toy "chat" 2 (T_device "cpu") (-1) (-1)
          (loop_dataloader 8 16 "cpu" (-1) (-1)) toy_trainer 1
          (toy_world None)))
  = 3%nat /\
  exists tr',
    result
      (@train_epoch toy "chat" 2 (T_device "cpu") (-1) (-1)
         (loop_dataloader 8 16 "cpu" (-1) (-1)) toy_trainer 1
         (toy_world None))
    = inr tr' /\
    @scheduler_advanced toy 3 0%nat (@tr_scheduler toy tr').
Proof.
  pose proof (@scheduler_once_per_batch toy "chat" 2 (T_device "cpu") (-1)
                (-1) (loop_dataloader 8 16 "cpu" (-1) (-1)) toy_trainer 1
                (toy_world None)) as W.
  cbv zeta in W. destruct W as [_ [W S]].
  split; [rewrite W by lia; reflexivity|].
  apply S; [lia | vm_compute; discriminate].
Defined.

(* ------------------------------------------------------------------ *)
(** ** The whole run: resumption, saving on every rank, teardown *)

Section RunClaims.

Context {TORCH : Torch}.

Variables (name : string) (epochs batch_size : Z) (lr wd : Float)
  (max_seq_len k : Z) (device : string) (kw : Kwargs) (rank world_size : Z)
  (w : World).

Lemma load_or_create_restores (x : Checkpoint) (tr : Trainer) (w' : World) :
  checkpoints w' name = Some x ->
  result (load_or_create name tr w') =
  inr (mkTrainer (ck_network x) (ck_optimizer x) (ck_scheduler x)
         (ck_scaler x), ck_epochs x).
Proof.
  intros Hx. unfold load_or_create, checkpoint_exists, load_checkpoint,
    logger_info.
  destruct w' as [lvl pg cks mds]. cbn [checkpoints] in Hx.
  cbv beta iota zeta delta
    [bind ret emit get_world put_world raise result world events
     logger_level process_group checkpoints models].
  rewrite Hx. destruct lvl; cbn; rewrite Hx; reflexivity.
Qed.

(** C2: for every configured epoch count [epochs], a run that finds a
    checkpoint with epoch count [E] carries out its epoch loop from the
    network, optimizer, scheduler and scaler states of that checkpoint, over
    exactly the epochs [E+1 .. E+epochs], in order, none of them at or below
    [E]: its events are those of that loop between the set-up and the
    export, the network it exports is the one that loop returns, and the
    checkpoint files it leaves are the ones that loop leaves.  A run that
    finds no checkpoint iterates the epochs [1 .. epochs]. *)
Theorem resume_epoch_range :
  k <> 0 ->
  prompt_tokens
    (iter_batches (loop_dataloader batch_size max_seq_len device rank world_size))
  <> 0 ->
  let run :=
    training_loop name epochs batch_size lr wd max_seq_len k device kw
      rank world_size w in
  (forall x, checkpoints w name = Some x ->
     let loop :=
       forM (range (ck_epochs x + 1) (ck_epochs x + epochs + 1))
         (train_epoch name k (loop_device device rank) rank world_size
            (loop_dataloader batch_size max_seq_len device rank world_size))
         (mkTrainer (ck_network x) (ck_optimizer x) (ck_scheduler x)
            (ck_scaler x))
         (setup_world rank world_size w) in
     (exists tr',
        result loop = inr tr' /\
        models (world run) name = Some (tr_network tr')) /\
     checkpoints (world run) = checkpoints (world loop) /\
     events run =
       setup_events name device kw rank world_size (Some x)
       ++ events loop ++ [EvSaveModel name; EvDestroyProcessGroup] /\
     epochs_iterated (events run) =
       range (ck_epochs x + 1) (ck_epochs x + epochs + 1) /\
     (forall e, In e (epochs_iterated (events run)) <->
                ck_epochs x + 1 <= e <= ck_epochs x + epochs)) /\
  (checkpoints w name = None ->
     epochs_iterated (events run) = range 1 (epochs + 1) /\
     (forall e, In e (epochs_iterated (events run)) <-> 1 <= e <= epochs)).
Proof.
  intros Hk Hp run.
  destruct (training_loop_ok name epochs batch_size lr wd max_seq_len k device
              kw rank world_size w Hk Hp) as [_ [Hc _]].
  assert (He : epochs_iterated (events run) =
               range (starting_epochs_of (checkpoints w name) + 1)
                 (starting_epochs_of (checkpoints w name) + epochs + 1)).
  { unfold run. rewrite <- epochs_iterated_calls, Hc.
    apply epochs_iterated_run. }
  split.
  - intros x Hx loop. rewrite Hx in He. cbn [starting_epochs_of] in He.
    destruct (training_loop_stages name epochs batch_size lr wd max_seq_len k
                device kw rank world_size w) as [_ [Hw Hev]].
    fold run in Hw, Hev. unfold epochs_run in Hw, Hev.
    rewrite Hx in Hw, Hev.
    cbn [starting_epochs_of start_trainer] in Hw, Hev.
    change (prepare_dataloader batch_size max_seq_len rank world_size
              (Some (loop_device device rank))
              (Some (loop_device device rank)))
      with (loop_dataloader batch_size max_seq_len device rank world_size)
      in Hw, Hev.
    fold loop in Hw, Hev.
    destruct (epochs_loop_ok name k (loop_device device rank) rank world_size
                (loop_dataloader batch_size max_seq_len device rank world_size)
                (range (ck_epochs x + 1) (ck_epochs x + epochs + 1)) Hk Hp
                (mkTrainer (ck_network x) (ck_optimizer x) (ck_scheduler x)
                   (ck_scaler x))
                (setup_world rank world_size w)) as [tr' [Hr _]].
    fold loop in Hr. rewrite Hr in Hw, Hev.
    split; [|split; [|split; [|split]]].
    + exists tr'. split; [exact Hr|].
      rewrite Hw. cbn [models]. unfold update. now rewrite String.eqb_refl.
    + rewrite Hw. reflexivity.
    + exact Hev.
    + exact He.
    + intros e. rewrite He, in_range. lia.
  - intros Hx. rewrite Hx in He. cbn [starting_epochs_of] in He.
    split; [exact He|]. intros e. rewrite He, in_range. lia.
Qed.

(** C8: whatever the worker's rank and world size, its run saves a
    checkpoint in every epoch at the batches whose index is a multiple of
    the checkpoint interval, each time under the model's name; the rank
    enters only through the number of batches the worker's loader yields. *)
Theorem checkpoint_save_on_every_rank :
  k <> 0 ->
  prompt_tokens
    (iter_batches (loop_dataloader batch_size max_seq_len device rank world_size))
  <> 0 ->
  let run :=
    training_loop name epochs batch_size lr wd max_seq_len k device kw
      rank world_size w in
  saves (events run) =
  flat_map
    (fun e => map (fun _ => (name, e))
                (filter (fun i => i mod k =? 0)
                   (range 0
                      (len (iter_batches
                              (loop_dataloader batch_size max_seq_len device
                                 rank world_size))))))
    (range (starting_epochs_of (checkpoints w name) + 1)
       (starting_epochs_of (checkpoints w name) + epochs + 1)).
Proof.
  intros Hk Hp run.
  destruct (training_loop_ok name epochs batch_size lr wd max_seq_len k device
              kw rank world_size w Hk Hp) as [_ [Hc _]].
  unfold run. rewrite <- saves_calls, Hc. apply saves_run.
Qed.

(** C9: a run whose epochs complete exports the final model and then calls
    the teardown of the process group, once, as its last call, whatever the
    rank and world size; a process group is set up only when both are
    different from -1, so in single-process mode the teardown is called
    although no group was ever set up.  The run ends as that call ends: it
    returns when a group is live and fails when there is none, as in
    single-process mode from a world without a group. *)
Theorem teardown_unconditional :
  k <> 0 ->
  prompt_tokens
    (iter_batches (loop_dataloader batch_size max_seq_len device rank world_size))
  <> 0 ->
  let run :=
    training_loop name epochs batch_size lr wd max_seq_len k device kw
      rank world_size w in
  (exists pre, events run = pre ++ [EvSaveModel name; EvDestroyProcessGroup]) /\
  group_teardowns (events run) = 1%nat /\
  group_inits (events run) =
    (if is_distributed rank world_size then 1%nat else 0%nat) /\
  (rank = -1 -> group_inits (events run) = 0%nat) /\
  result run =
    (if is_distributed rank world_size || group_live w then inr tt
     else inl AssertionError) /\
  (rank = -1 -> process_group w = None -> result run = inl AssertionError).
Proof.
  intros Hk Hp run.
  destruct (training_loop_ok name epochs batch_size lr wd max_seq_len k device
              kw rank world_size w Hk Hp) as [Hr [Hc Hs]].
  assert (Hi : group_inits (events run) =
               if is_distributed rank world_size then 1%nat else 0%nat).
  { unfold run, group_inits. rewrite <- count_calls by reflexivity.
    rewrite Hc. apply group_inits_run. }
  assert (Ht : result run =
               if is_distributed rank world_size || group_live w then inr tt
               else inl AssertionError).
  { unfold run. rewrite Hr.
    unfold teardown_result, group_live, setup_world. cbn [process_group].
    destruct (is_distributed rank world_size); reflexivity. }
  split; [exact Hs|]. split; [|split; [exact Hi|split; [|split; [exact Ht|]]]].
  - unfold run, group_teardowns. rewrite <- count_calls by reflexivity.
    rewrite Hc. apply group_teardowns_run.
  - intros ->. rewrite Hi. reflexivity.
  - intros -> Hg. rewrite Ht. unfold group_live. rewrite Hg. reflexivity.
Qed.

End RunClaims.

Lemma resume_epoch_range_witness :
  epochs_iterated
    (events
       (@training_loop toy "chat" 2 8 0%Q 0%Q 16 2 "cpu" tt (-1) (-1)
          (toy_world (Some toy_checkpoint))))
  = [5; 6] /\
  epochs_iterated
    (events
       (@training_loop toy "chat" 2 8 0%Q 0%Q 16 2 "cpu" tt (-1) (-1)
          (toy_world None)))
  = [1; 2].
Proof.
  split.
  - pose proof (@resume_epoch_range toy "chat" 2 8 0%Q 0%Q 16 2 "cpu" tt (-1)
                  (-1) (toy_world (Some toy_checkpoint)) ltac:(lia)
                  ltac:(vm_compute; discriminate)) as W.
    cbv zeta in W. destruct W as [W _].
    destruct (W toy_checkpoint eq_refl) as [_ [_ [_ [E _]]]].
    rewrite E. reflexivity.
  - pose proof (@resume_epoch_range toy "chat" 2 8 0%Q 0%Q 16 2 "cpu" tt (-1)
                  (-1) (toy_world None) ltac:(lia)
                  ltac:(vm_compute; discriminate)) as W.
    cbv zeta in W. destruct W as [_ W].
    destruct (W eq_refl) as [E _].
    rewrite E. reflexivity.
Defined.

Lemma checkpoint_save_on_every_rank_witness :
  saves
    (events
       (@training_loop toy "chat" 2 8 0%Q 0%Q 16 2 "cpu" tt 1 2
          (toy_world None)))
  = [("chat"%string, 1); ("chat"%string, 1);
     ("chat"%string, 2); ("chat"%string, 2)].
Proof.
  pose proof (@checkpoint_save_on_every_rank toy "chat" 2 8 0%Q 0%Q 16 2
                "cpu" tt 1 2 (toy_world None) ltac:(lia)
                ltac:(vm_compute; discriminate)) as W.
  cbv zeta in W. rewrite W. reflexivity.
Defined.

Lemma teardown_unconditional_witness :
  group_teardowns
    (events
       (@training_loop toy "chat" 2 8 0%Q 0%Q 16 2 "cpu" tt (-1) (-1)
          (toy_world None)))
  = 1%nat /\
  group_inits
    (events
       (@training_loop toy "chat" 2 8 0%Q 0%Q 16 2 "cpu" tt (-1) (-1)
          (toy_world None)))
  = 0%nat /\
  result
    (@training_loop toy "chat" 2 8 0%Q 0%Q 16 2 "cpu" tt (-1) (-1)
       (toy_world None))
  = inl AssertionError.
Proof.
  pose proof (@teardown_unconditional toy "chat" 2 8 0%Q 0%Q 16 2 "cpu" tt
                (-1) (-1) (toy_world None) ltac:(lia)
                ltac:(vm_compute; discriminate)) as W.
  cbv zeta in W. destruct W as [_ [Ht [_ [Hi [_ Hr]]]]].
  split; [exact Ht | split; [exact (Hi eq_refl) | exact (Hr eq_refl eq_refl)]].
Defined.

(* ------------------------------------------------------------------ *)
(** ** Loss and accuracy accumulators *)

Section Accumulators.

Context {TORCH : Torch}.

(** A position whose expected label is the padding index contributes
    neither a term nor a count to the loss. *)
Lemma criterion_skips_padding (row : list Float) (rows : list (list Float))
    (targets : list Z) :
  criterion (row :: rows) (PAD_IDX :: targets) = criterion rows targets.
Proof.
  unfold criterion, CrossEntropyLoss. cbn [combine filter snd].
  now rewrite Z.eqb_refl.
Qed.

(** A padding position whose prediction is the padding class counts as
    correct. *)
Lemma count_correct_counts_padding (row : list Float) :
  argmax row = PAD_IDX ->
  count_correct [[row]] [[PAD_IDX]] = 1.
Proof.
  intros H. unfold count_correct, view_rows, flatten.
  cbn [concat app combine filter fst snd]. rewrite H, Z.eqb_refl. reflexivity.
Qed.

End Accumulators.

(** C1: one batch with a prompt of sixteen tokens and three decoder
    positions, the last of them padding, all three predicted as expected.
    The loss added is the mean of the two terms of the positions that are
    not padding, the correct-token counter grows by three, the padding
    position included, but the total-token counter grows by sixteen, the
    size of the prompt tensor, not by the three positions compared; with a
    prompt of one token it grows by one, below the correct-token counter. *)
Theorem accuracy_denominator_is_prompt_size :
  let zero := @mkMetrics toy 0 0 0%Q in
  let loss :=
    @fadd toy 0%Q
      (@fdiv toy
         (@fadd toy (@fadd toy 0%Q (@nll toy [-3; -2; -1]%Q 2))
            (@nll toy [-2; -1; -3]%Q 1))
         (@float_of_int toy 2)) in
  @label_positions toy_labels = 3 /\
  (exists tr',
     result
       (@train_batch toy "chat" 100 (T_device "cpu") 1 (toy_trainer, zero)
          (0, (toy_prompts, toy_labels)) (toy_world None))
     = inr (tr', @mkMetrics toy 3 16 loss)) /\
  (exists tr',
     result
       (@train_batch toy "chat" 100 (T_device "cpu") 1 (toy_trainer, zero)
          (0, ([[5]], toy_labels)) (toy_world None))
     = inr (tr', @mkMetrics toy 3 1 loss)).
Proof.
  cbv zeta. split; [reflexivity|].
  split; eexists; vm_compute; reflexivity.
Qed.

(* ------------------------------------------------------------------ *)
(** ** The logger level through a run *)

Section LevelFacts.

Context {TORCH : Torch}.

Lemma batch_loop_level name k device epoch bs : forall i0 st w,
  logger_level
    (world (forM (enumerate_from i0 bs) (train_batch name k device epoch) st w))
  = logger_level w.
Proof.
  induction bs as [|b bs IH]; intros i0 st w; [reflexivity|].
  cbn [enumerate_from forM]. rewrite world_bind.
  destruct (result _) as [e|st'].
  - apply train_batch_level.
  - rewrite IH. apply train_batch_level.
Qed.

Lemma train_epoch_level name k device rank world_size dataloader tr epoch w :
  logger_level
    (world (train_epoch name k device rank world_size dataloader tr epoch w))
  = logger_level w.
Proof.
  unfold train_epoch, enumerate.
  rewrite !world_bind. cbn [emit result world].
  pose proof (batch_loop_level name k device epoch (iter_batches dataloader) 0
                (tr, mkMetrics 0 0 (float_of_int 0)) w) as Hl.
  destruct (result (forM _ _ _ w)) as [e|[tr' mt]]; [exact Hl|].
  set (W := world (forM _ _ _ w)) in *.
  unfold py_fdiv_int, py_truediv, logger_info.
  destruct W as [lvl pg cks mds]. cbn [logger_level] in Hl. subst lvl.
  destruct (len (iter_batches dataloader) =? 0), (num_total mt =? 0),
    (logger_level w); reflexivity.
Qed.

Lemma epochs_loop_level name k device rank world_size dataloader es :
  forall tr w,
  logger_level
    (world (forM es (train_epoch name k device rank world_size dataloader) tr w))
  = logger_level w.
Proof.
  induction es as [|e es IH]; intros tr w; [reflexivity|].
  cbn [forM]. rewrite world_bind.
  destruct (result _) as [x|tr'].
  - apply train_epoch_level.
  - rewrite IH. apply train_epoch_level.
Qed.

Lemma log_records_app (a b : list Event) :
  log_records (a ++ b) = log_records a ++ log_records b.
Proof. apply filter_app. Qed.

Lemma batch_loop_silent name k device epoch bs : forall i0 st w,
  logger_level w = CRITICAL ->
  log_records
    (events (forM (enumerate_from i0 bs) (train_batch name k device epoch) st w))
  = [].
Proof.
  induction bs as [|b bs IH]; intros i0 st w Hw; [reflexivity|].
  cbn [enumerate_from forM]. rewrite events_bind, log_records_app.
  destruct st as [tr mt], b as [p l]. rewrite train_batch_events, Hw.
  assert (Hb : log_records
                 (batch_events (is_cuda device) CRITICAL name epoch i0 k) = []).
  { unfold batch_events, step_calls, save_events.
    destruct (is_cuda device), (k =? 0), (i0 mod k =? 0); reflexivity. }
  rewrite Hb. destruct (result _) as [e|st']; [reflexivity|].
  apply IH. now rewrite train_batch_level.
Qed.

Lemma train_epoch_silent name k device rank world_size dataloader tr epoch w :
  logger_level w = CRITICAL ->
  log_records
    (events (train_epoch name k device rank world_size dataloader tr epoch w))
  = [].
Proof.
  intros Hw. unfold train_epoch, enumerate.
  rewrite !events_bind. cbn [emit result world events].
  rewrite !log_records_app, batch_loop_silent by exact Hw.
  pose proof (batch_loop_level name k device epoch (iter_batches dataloader) 0
                (tr, mkMetrics 0 0 (float_of_int 0)) w) as Hl.
  destruct (result (forM _ _ _ w)) as [e|[tr' mt]]; [reflexivity|].
  set (W := world (forM _ _ _ w)) in *.
  unfold py_fdiv_int, py_truediv, logger_info.
  destruct W as [lvl pg cks mds]. cbn [logger_level] in Hl.
  rewrite Hw in Hl. subst lvl.
  destruct (len (iter_batches dataloader) =? 0), (num_total mt =? 0);
    reflexivity.
Qed.

Lemma epochs_loop_silent name k device rank world_size dataloader es :
  forall tr w,
  logger_level w = CRITICAL ->
  log_records
    (events
       (forM es (train_epoch name k device rank world_size dataloader) tr w))
  = [].
Proof.
  induction es as [|e es IH]; intros tr w Hw; [reflexivity|].
  cbn [forM]. rewrite events_bind, log_records_app, train_epoch_silent by exact Hw.
  destruct (result _) as [x|tr']; [reflexivity|].
  apply IH. now rewrite train_epoch_level.
Qed.

Lemma training_loop_silent name epochs batch_size lr wd max_seq_len k
    device kw rank world_size w :
  is_main_process rank world_size = false ->
  log_records
    (events (training_loop name epochs batch_size lr wd max_seq_len k device kw
               rank world_size w))
  = [].
Proof.
  intros Hm.
  destruct (training_loop_stages name epochs batch_size lr wd max_seq_len k
              device kw rank world_size w) as [_ [_ He]].
  rewrite He, !log_records_app. unfold epochs_run.
  rewrite epochs_loop_silent
    by (unfold setup_world; cbn [logger_level]; now rewrite Hm).
  unfold setup_events. rewrite Hm.
  destruct (result _), (is_distributed rank world_size), (checkpoints w name);
    reflexivity.
Qed.

(** X1: workers that are not the designated reporter emit no log record at all,
    whatever the arguments and however the run ends: neither the parameter
    count, nor a checkpoint notice, nor the metrics of an epoch. *)
Theorem other_workers_log_nothing name epochs batch_size lr wd max_seq_len k
    device kw rank world_size w :
  is_main_process rank world_size = false ->
  forall m,
    ~ In (EvLogInfo m)
        (events (training_loop name epochs batch_size lr wd max_seq_len k
                   device kw rank world_size w)).
Proof.
  intros Hm m Hin.
  pose proof (training_loop_silent name epochs batch_size lr wd max_seq_len k
                device kw rank world_size w Hm) as Hs.
  assert (Hf : In (EvLogInfo m)
                 (log_records
                    (events (training_loop name epochs batch_size lr wd
                               max_seq_len k device kw rank world_size w)))).
  { unfold log_records. apply filter_In. split; [exact Hin | reflexivity]. }
  rewrite Hs in Hf. exact Hf.
Qed.

End LevelFacts.

Lemma other_workers_log_nothing_witness :
  ~ In (@EvLogInfo toy (@MsgSaving toy))
      (events
         (@training_loop toy "chat" 2 8 0%Q 0%Q 16 2 "cpu" tt 1 2
            (toy_world None))).
Proof.
  apply (@other_workers_log_nothing toy "chat" 2 8 0%Q 0%Q 16 2 "cpu" tt 1 2
           (toy_world None)).
  reflexivity.
Defined.

(* ------------------------------------------------------------------ *)
(** ** Runs that end in an exception, and runs over no epoch *)

Section EdgeRuns.

Context {TORCH : Torch}.

Lemma train_batch_world_zero name device epoch st item w :
  world (train_batch name 0 device epoch st item w) = w.
Proof.
  destruct st as [tr mt], item as [i [prompts labels]].
  unfold train_batch, backward_and_step, py_mod.
  destruct w as [lvl pg cks mds].
  step_batch device; reflexivity.
Qed.

Lemma train_epoch_zero_interval name device rank world_size dataloader tr
    epoch w :
  iter_batches dataloader <> [] ->
  let o := train_epoch name 0 device rank world_size dataloader tr epoch w in
  result o = inl ZeroDivisionError /\
  world o = w /\
  events o =
    EvTqdm epoch (negb (is_main_process rank world_size))
    :: EvForward (is_cuda device)
    :: step_calls (is_cuda device) ++ [EvZeroGrad; EvSchedulerStep].
Proof.
  intros Hb. cbv zeta. unfold train_epoch, enumerate.
  destruct (iter_batches dataloader) as [|[p l] bs]; [congruence|]. clear Hb.
  cbn [enumerate_from forM].
  rewrite !result_bind, !world_bind, !events_bind.
  cbn [emit result world events].
  rewrite ?result_bind, ?world_bind, ?events_bind.
  rewrite ?train_batch_raises, ?train_batch_world_zero, ?train_batch_events.
  unfold batch_events, save_events. cbn [Z.eqb].
  rewrite !app_nil_r. repeat split; reflexivity.
Qed.

Lemma train_epoch_no_batches name k device rank world_size dataloader tr
    epoch w :
  iter_batches dataloader = [] ->
  let o := train_epoch name k device rank world_size dataloader tr epoch w in
  result o = inl ZeroDivisionError /\
  world o = w /\
  events o = [EvTqdm epoch (negb (is_main_process rank world_size))].
Proof.
  intros Hb. cbv zeta. unfold train_epoch, enumerate, py_fdiv_int.
  rewrite Hb. repeat split; reflexivity.
Qed.

Lemma first_epoch_raises name k device rank world_size dataloader e es tr w
    (evs : list Event) :
  result (train_epoch name k device rank world_size dataloader tr e w)
    = inl ZeroDivisionError ->
  world (train_epoch name k device rank world_size dataloader tr e w) = w ->
  events (train_epoch name k device rank world_size dataloader tr e w) = evs ->
  let o :=
    forM (e :: es) (train_epoch name k device rank world_size dataloader) tr w
  in
  result o = inl ZeroDivisionError /\ world o = w /\ events o = evs.
Proof.
  intros Hr Hw He. cbv zeta. cbn [forM].
  rewrite result_bind, world_bind, events_bind, Hr, Hw, He, app_nil_r.
  repeat split; reflexivity.
Qed.

(** X3: a checkpoint interval of 0 makes a run over at least one epoch and one
    batch fail with [ZeroDivisionError] at the checkpoint test of its first
    batch: after the set-up the run makes exactly the calls of that batch up
    to and including the scheduler step, so the scheduler is stepped once, no
    checkpoint is saved, the model is not exported, and the process group is
    not torn down. *)
Theorem zero_interval_fails_in_first_batch name epochs batch_size lr wd
    max_seq_len device kw rank world_size w :
  0 < epochs ->
  iter_batches (loop_dataloader batch_size max_seq_len device rank world_size)
  <> [] ->
  let run := training_loop name epochs batch_size lr wd max_seq_len 0 device
               kw rank world_size w in
  result run = inl ZeroDivisionError /\
  events run =
    setup_events name device kw rank world_size (checkpoints w name)
    ++ EvTqdm (starting_epochs_of (checkpoints w name) + 1)
         (negb (is_main_process rank world_size))
       :: EvForward (is_cuda (loop_device device rank))
       :: step_calls (is_cuda (loop_device device rank))
       ++ [EvZeroGrad; EvSchedulerStep] /\
  scheduler_steps (events run) = 1%nat /\
  saves (events run) = [] /\
  exports (events run) = 0%nat /\
  group_teardowns (events run) = 0%nat /\
  world run = setup_world rank world_size w.
Proof.
  intros Hn Hb run.
  destruct (training_loop_stages name epochs batch_size lr wd max_seq_len 0
              device kw rank world_size w) as [Hr [Hw He]].
  fold run in Hr, Hw, He.
  unfold epochs_run in Hr, Hw, He.
  rewrite range_cons in Hr, Hw, He by lia.
  destruct (train_epoch_zero_interval name (loop_device device rank) rank
              world_size
              (loop_dataloader batch_size max_seq_len device rank world_size)
              (start_trainer lr wd device kw rank world_size
                 (checkpoints w name))
              (starting_epochs_of (checkpoints w name) + 1)
              (setup_world rank world_size w) Hb) as [R1 [W1 E1]].
  match type of Hr with
  | context [forM (?e :: ?es) ?f ?tr ?w0] =>
      destruct (first_epoch_raises name 0 (loop_device device rank) rank
                  world_size
                  (loop_dataloader batch_size max_seq_len device rank
                     world_size) e es tr w0 _ R1 W1 E1) as [R2 [W2 E2]]
  end.
  unfold loop_dataloader in R2, W2, E2.
  rewrite R2 in Hr, Hw, He. rewrite W2 in Hw. rewrite E2 in He.
  rewrite app_nil_r in He.
  split; [exact Hr|]. split; [exact He|]. rewrite He, Hw.
  unfold setup_events, step_calls.
  destruct (is_cuda (loop_device device rank)),
    (is_distributed rank world_size), (is_main_process rank world_size),
    (checkpoints w name); repeat split; reflexivity.
Qed.

(** X4: a data loader that yields no batch makes a run over at least one epoch
    fail with [ZeroDivisionError] at the end of its first epoch, whatever
    the checkpoint interval: the model is not exported and the process group
    is not torn down. *)
Theorem empty_loader_fails_after_first_epoch name epochs batch_size lr wd
    max_seq_len k device kw rank world_size w :
  0 < epochs ->
  iter_batches (loop_dataloader batch_size max_seq_len device rank world_size)
  = [] ->
  let run := training_loop name epochs batch_size lr wd max_seq_len k device
               kw rank world_size w in
  result run = inl ZeroDivisionError /\
  epochs_iterated (events run) =
    [starting_epochs_of (checkpoints w name) + 1] /\
  batches_processed (events run) = 0%nat /\
  exports (events run) = 0%nat /\
  group_teardowns (events run) = 0%nat /\
  world run = setup_world rank world_size w.
Proof.
  intros Hn Hb run.
  destruct (training_loop_stages name epochs batch_size lr wd max_seq_len k
              device kw rank world_size w) as [Hr [Hw He]].
  fold run in Hr, Hw, He.
  unfold epochs_run in Hr, Hw, He.
  rewrite range_cons in Hr, Hw, He by lia.
  destruct (train_epoch_no_batches name k (loop_device device rank) rank
              world_size
              (loop_dataloader batch_size max_seq_len device rank world_size)
              (start_trainer lr wd device kw rank world_size
                 (checkpoints w name))
              (starting_epochs_of (checkpoints w name) + 1)
              (setup_world rank world_size w) Hb) as [R1 [W1 E1]].
  match type of Hr with
  | context [forM (?e :: ?es) ?f ?tr ?w0] =>
      destruct (first_epoch_raises name k (loop_device device rank) rank
                  world_size
                  (loop_dataloader batch_size max_seq_len device rank
                     world_size) e es tr w0 _ R1 W1 E1) as [R2 [W2 E2]]
  end.
  unfold loop_dataloader in R2, W2, E2.
  rewrite R2 in Hr, Hw, He. rewrite W2 in Hw. rewrite E2 in He.
  split; [exact Hr|]. rewrite He, Hw.
  unfold setup_events.
  destruct (is_distributed rank world_size), (is_main_process rank world_size),
    (checkpoints w name); repeat split; reflexivity.
Qed.

(** X5: with no epoch to run ([epochs <= 0]) the loop neither touches the data
    loader nor divides: for any checkpoint interval it exports, under the
    model's name, the network it started from (the checkpoint's network when
    a checkpoint exists), calls the teardown of the process group and leaves
    the checkpoint files as they were; it ends as that teardown ends, with
    an exception when no process group is live. *)
Theorem no_epochs_exports_start_network name epochs batch_size lr wd
    max_seq_len k device kw rank world_size w :
  epochs <= 0 ->
  let run := training_loop name epochs batch_size lr wd max_seq_len k device
               kw rank world_size w in
  result run = teardown_result (setup_world rank world_size w) /\
  (is_distributed rank world_size = false -> process_group w = None ->
   result run = inl AssertionError) /\
  events run =
    setup_events name device kw rank world_size (checkpoints w name)
    ++ [EvSaveModel name; EvDestroyProcessGroup] /\
  models (world run) name =
    Some (tr_network
            (start_trainer lr wd device kw rank world_size
               (checkpoints w name))) /\
  (forall x, checkpoints w name = Some x ->
             models (world run) name = Some (ck_network x)) /\
  checkpoints (world run) = checkpoints w /\
  process_group (world run) = None.
Proof.
  intros Hn run.
  destruct (training_loop_stages name epochs batch_size lr wd max_seq_len k
              device kw rank world_size w) as [Hr [Hw He]].
  fold run in Hr, Hw, He.
  unfold epochs_run in Hr, Hw, He.
  rewrite range_nil in Hr, Hw, He by lia.
  cbn [forM ret result world events app] in Hr, Hw, He.
  assert (Hm : models (world run) name =
               Some (tr_network
                       (start_trainer lr wd device kw rank world_size
                          (checkpoints w name)))).
  { rewrite Hw. cbn [models]. unfold update. now rewrite String.eqb_refl. }
  split; [exact Hr|]. split; [|split; [exact He|split; [exact Hm|split]]].
  - intros Hd Hg. rewrite Hr.
    unfold teardown_result, group_live, setup_world. cbn [process_group].
    rewrite Hd, Hg. reflexivity.
  - intros x Hx. rewrite Hm, Hx. reflexivity.
  - split; rewrite Hw; reflexivity.
Qed.

End EdgeRuns.

Lemma zero_interval_fails_in_first_batch_witness :
  result
    (@training_loop toy "chat" 2 8 0%Q 0%Q 16 0 "cpu" tt 0 2 (toy_world None))
  = inl ZeroDivisionError /\
  process_group
    (world
       (@training_loop toy "chat" 2 8 0%Q 0%Q 16 0 "cpu" tt 0 2
          (toy_world None)))
  = Some (0, 2).
Proof.
  pose proof (@zero_interval_fails_in_first_batch toy "chat" 2 8 0%Q 0%Q 16
                "cpu" tt 0 2 (toy_world None) ltac:(lia)
                ltac:(discriminate)) as W.
  cbv zeta in W. destruct W as [R [_ [_ [_ [_ [_ W]]]]]].
  split; [exact R | rewrite W; reflexivity].
Defined.

Lemma empty_loader_fails_after_first_epoch_witness :
  result
    (@training_loop (toy_torch [] toy_logits) "chat" 2 8 0%Q 0%Q 16 2 "cpu" tt
       (-1) (-1) (@mkWorld (toy_torch [] toy_logits) CRITICAL None
                    (fun _ => None) (fun _ => None)))
  = inl ZeroDivisionError.
Proof.
  apply (@empty_loader_fails_after_first_epoch (toy_torch [] toy_logits)
           "chat" 2 8 0%Q 0%Q 16 2 "cpu" tt (-1) (-1)
           (@mkWorld (toy_torch [] toy_logits) CRITICAL None
              (fun _ => None) (fun _ => None)));
    [lia | reflexivity].
Defined.

Lemma no_epochs_exports_start_network_witness :
  models
    (world
       (@training_loop toy "chat" 0 8 0%Q 0%Q 16 0 "cpu" tt (-1) (-1)
          (toy_world (Some toy_checkpoint))))
    "chat"
  = Some 7%nat.
Proof.
  pose proof (@no_epochs_exports_start_network toy "chat" 0 8 0%Q 0%Q 16 0
                "cpu" tt (-1) (-1) (toy_world (Some toy_checkpoint))
                ltac:(lia)) as W.
  cbv zeta in W. destruct W as [_ [_ [_ [_ [W _]]]]].
  exact (W toy_checkpoint eq_refl).
Defined.

(* ------------------------------------------------------------------ *)
(** ** The epoch count in the checkpoint file *)

Section CheckpointTag.

Context {TORCH : Torch}.

Lemma train_batch_saves_state name k device epoch tr mt i prompts labels w :
  k <> 0 ->
  i mod k = 0 ->
  exists tr' mt',
    result (train_batch name k device epoch (tr, mt) (i, (prompts, labels)) w)
    = inr (tr', mt') /\
    checkpoints
      (world (train_batch name k device epoch (tr, mt) (i, (prompts, labels)) w))
      name
    = Some (checkpoint_of tr' epoch).
Proof.
  intros Hk Hi. apply Z.eqb_neq in Hk.
  unfold train_batch, backward_and_step, py_mod, logger_info, save_checkpoint,
    checkpoint_of.
  rewrite Hk, Hi. destruct w as [lvl pg cks mds].
  step_batch device; destruct lvl; cbn; unfold update;
    rewrite String.eqb_refl; do 2 eexists; split; reflexivity.
Qed.

Lemma train_batch_keeps_tag name k device epoch st item w :
  k <> 0 ->
  checkpoint_epochs name w = Some epoch ->
  checkpoint_epochs name (world (train_batch name k device epoch st item w))
  = Some epoch.
Proof.
  intros Hk Hw. apply Z.eqb_neq in Hk.
  destruct st as [tr mt], item as [i [prompts labels]].
  unfold train_batch, backward_and_step, py_mod, logger_info, save_checkpoint,
    checkpoint_epochs in *.
  rewrite Hk. destruct w as [lvl pg cks mds]. cbn [checkpoints] in Hw.
  step_batch device; cbn; destruct (i mod k =? 0), lvl; cbn; unfold update;
    rewrite ?String.eqb_refl; try reflexivity; exact Hw.
Qed.

Lemma batch_loop_keeps_tag name k device epoch bs : forall i0 st w,
  k <> 0 ->
  checkpoint_epochs name w = Some epoch ->
  checkpoint_epochs name
    (world (forM (enumerate_from i0 bs) (train_batch name k device epoch) st w))
  = Some epoch.
Proof.
  induction bs as [|b bs IH]; intros i0 st w Hk Hw; [exact Hw|].
  cbn [enumerate_from forM]. rewrite world_bind.
  destruct (result _) as [e|st'].
  - now apply train_batch_keeps_tag.
  - apply IH; [exact Hk|]. now apply train_batch_keeps_tag.
Qed.

Lemma train_epoch_world name k device rank world_size dataloader tr epoch w :
  world (train_epoch name k device rank world_size dataloader tr epoch w) =
  world
    (forM (enumerate (iter_batches dataloader))
       (train_batch name k device epoch)
       (tr, mkMetrics 0 0 (float_of_int 0)) w).
Proof.
  unfold train_epoch.
  rewrite !world_bind. cbn [emit result world].
  destruct (result (forM _ _ _ w)) as [e|[tr' mt]]; [reflexivity|].
  set (W := world (forM _ _ _ w)).
  unfold py_fdiv_int, py_truediv, logger_info.
  destruct W as [lvl pg cks mds].
  destruct (len (iter_batches dataloader) =? 0), (num_total mt =? 0), lvl;
    reflexivity.
Qed.

(** Every epoch over at least one batch leaves its own number in the
    checkpoint file: its first batch saves. *)
Lemma train_epoch_tags name k device rank world_size dataloader tr epoch w :
  k <> 0 ->
  iter_batches dataloader <> [] ->
  checkpoint_epochs name
    (world (train_epoch name k device rank world_size dataloader tr epoch w))
  = Some epoch.
Proof.
  intros Hk Hb. rewrite train_epoch_world. unfold enumerate.
  destruct (iter_batches dataloader) as [|[p l] bs]; [congruence|].
  cbn [enumerate_from forM]. rewrite world_bind.
  destruct (train_batch_saves_state name k device epoch tr
              (mkMetrics 0 0 (float_of_int 0)) 0 p l w Hk
              (Z.mod_0_l k Hk)) as [tr' [mt' [Hr Hc]]].
  rewrite Hr. apply batch_loop_keeps_tag; [exact Hk|].
  unfold checkpoint_epochs. rewrite Hc. reflexivity.
Qed.

Lemma epochs_loop_tags name k device rank world_size dataloader es :
  k <> 0 ->
  prompt_tokens (iter_batches dataloader) <> 0 ->
  forall tr w,
  checkpoint_epochs name
    (world (forM es (train_epoch name k device rank world_size dataloader) tr w))
  = match es with
    | [] => checkpoint_epochs name w
    | _ => Some (last es 0)
    end.
Proof.
  intros Hk Hp. induction es as [|e es IH]; intros tr w; [reflexivity|].
  cbn [forM]. rewrite world_bind.
  destruct (train_epoch_ok name k device rank world_size dataloader tr e w
              Hk Hp) as [tr1 [Hr _]].
  rewrite Hr, IH. destruct es as [|e' es']; [|reflexivity].
  apply train_epoch_tags; [exact Hk|].
  intros Hn. rewrite Hn in Hp. now apply Hp.
Qed.

Lemma range_last (lo hi d : Z) : lo < hi -> last (range lo hi) d = hi - 1.
Proof.
  intros H.
  remember (Z.to_nat (hi - lo - 1)) as n eqn:Hn.
  revert lo H Hn. induction n as [|n IH]; intros lo H Hn.
  - rewrite range_cons, range_nil by lia. cbn. lia.
  - rewrite range_cons by lia.
    rewrite <- (IH (lo + 1)) by lia.
    rewrite (range_cons (lo + 1)) by lia. reflexivity.
Qed.

(** X6: a run of at least one epoch whose epochs complete leaves the number
    of its last epoch in the checkpoint file, so a further run with the same
    arguments iterates the epochs that follow, continuing the numbering
    where the first stopped. *)
Theorem completed_run_is_resumed_after name epochs epochs' batch_size lr wd
    max_seq_len k device kw rank world_size w :
  k <> 0 ->
  prompt_tokens
    (iter_batches (loop_dataloader batch_size max_seq_len device rank world_size))
  <> 0 ->
  0 < epochs ->
  let e0 := starting_epochs_of (checkpoints w name) in
  let run := training_loop name epochs batch_size lr wd max_seq_len k device
               kw rank world_size w in
  let run' := training_loop name epochs' batch_size lr wd max_seq_len k device
                kw rank world_size (world run) in
  checkpoint_epochs name (world run) = Some (e0 + epochs) /\
  epochs_iterated (events run) = range (e0 + 1) (e0 + epochs + 1) /\
  epochs_iterated (events run') =
    range (e0 + epochs + 1) (e0 + epochs + epochs' + 1).
Proof.
  intros Hk Hp Hn e0 run run'.
  assert (Hc : checkpoint_epochs name (world run) = Some (e0 + epochs)).
  { destruct (training_loop_stages name epochs batch_size lr wd max_seq_len k
                device kw rank world_size w) as [_ [Hw _]].
    fold run in Hw. unfold epochs_run in Hw. fold e0 in Hw.
    pose proof (epochs_loop_tags name k (loop_device device rank) rank
                  world_size
                  (loop_dataloader batch_size max_seq_len device rank
                     world_size)
                  (range (e0 + 1) (e0 + epochs + 1)) Hk Hp
                  (start_trainer lr wd device kw rank world_size
                     (checkpoints w name))
                  (setup_world rank world_size w)) as Ht.
    unfold loop_dataloader in Ht.
    rewrite (range_cons (e0 + 1)) in Ht at 2 by lia.
    rewrite range_last in Ht by lia.
    unfold checkpoint_epochs in *. rewrite Hw.
    destruct (result _); cbn [checkpoints];
      rewrite Ht; f_equal; lia. }
  split; [exact Hc|]. split.
  - destruct (training_loop_ok name epochs batch_size lr wd max_seq_len k
                device kw rank world_size w Hk Hp) as [_ [Hcalls _]].
    unfold run. rewrite <- epochs_iterated_calls, Hcalls, epochs_iterated_run.
    reflexivity.
  - destruct (training_loop_ok name epochs' batch_size lr wd max_seq_len k
                device kw rank world_size (world run) Hk Hp) as [_ [Hcalls _]].
    unfold run'. rewrite <- epochs_iterated_calls, Hcalls, epochs_iterated_run.
    unfold checkpoint_epochs in Hc.
    destruct (checkpoints (world run) name) as [x|]; [|discriminate].
    cbn in Hc. injection Hc as Hc. cbn [starting_epochs_of]. rewrite Hc.
    f_equal; lia.
Qed.

(** X7: the checkpoint saved in a batch holds the four states as they are after
    that batch's scheduler step (the network with its gradients cleared
    after the optimizer step, the optimizer and the scheduler as the
    scheduler step leaves them, the scaler as the step leaves it) and
    carries the number of the epoch under way; a run started from it begins
    with the following epoch. *)
Theorem checkpoint_in_epoch_resumes_at_next name epochs batch_size lr wd
    max_seq_len k device kw rank world_size dev epoch tr mt i prompts labels w :
  k <> 0 ->
  i mod k = 0 ->
  prompt_tokens
    (iter_batches (loop_dataloader batch_size max_seq_len device rank world_size))
  <> 0 ->
  let o := train_batch name k dev epoch (tr, mt) (i, (prompts, labels)) w in
  let run := training_loop name epochs batch_size lr wd max_seq_len k device
               kw rank world_size (world o) in
  (exists tr1 tr' mt',
     result (backward_and_step dev tr prompts labels w) = inr tr1 /\
     result o = inr (tr', mt') /\
     tr_network tr' = zero_grad (tr_optimizer tr1) (tr_network tr1) /\
     tr_optimizer tr' =
       snd (scheduler_step (tr_scheduler tr) (tr_optimizer tr1)) /\
     tr_scheduler tr' =
       fst (scheduler_step (tr_scheduler tr) (tr_optimizer tr1)) /\
     tr_scaler tr' = tr_scaler tr1 /\
     checkpoints (world o) name =
       Some (mkCheckpoint (tr_network tr') (tr_optimizer tr')
               (tr_scheduler tr') (tr_scaler tr') epoch)) /\
  epochs_iterated (events run) = range (epoch + 1) (epoch + epochs + 1).
Proof.
  intros Hk Hi Hp o run.
  destruct (train_batch_saves_state name k dev epoch tr mt i prompts labels w
              Hk Hi) as [tr' [mt' [Hr Hc]]].
  destruct (train_batch_state name k dev epoch tr mt i prompts labels w Hk)
    as [tr1 [mt1 [Hb Hs]]].
  split.
  - exists tr1, tr', mt'.
    rewrite Hr in Hs. injection Hs as Ht _.
    split; [exact Hb|]. split; [exact Hr|].
    rewrite Ht. cbn [tr_network tr_optimizer tr_scheduler tr_scaler].
    repeat (split; [reflexivity|]).
    fold o in Hc. rewrite Hc, Ht. reflexivity.
  - destruct (training_loop_ok name epochs batch_size lr wd max_seq_len k device
                kw rank world_size (world o) Hk Hp) as [_ [Hcalls _]].
    unfold run. rewrite <- epochs_iterated_calls, Hcalls, epochs_iterated_run.
    fold o in Hc. rewrite Hc. reflexivity.
Qed.

End CheckpointTag.

Lemma completed_run_is_resumed_after_witness :
  checkpoint_epochs "chat"
    (world
       (@training_loop toy "chat" 2 8 0%Q 0%Q 16 2 "cpu" tt (-1) (-1)
          (toy_world (Some toy_checkpoint))))
  = Some 6 /\
  epochs_iterated
    (events
       (@training_loop toy "chat" 3 8 0%Q 0%Q 16 2 "cpu" tt (-1) (-1)
          (world
             (@training_loop toy "chat" 2 8 0%Q 0%Q 16 2 "cpu" tt (-1) (-1)
                (toy_world (Some toy_checkpoint))))))
  = [7; 8; 9].
Proof.
  pose proof (@completed_run_is_resumed_after toy "chat" 2 3 8 0%Q 0%Q 16 2
                "cpu" tt (-1) (-1) (toy_world (Some toy_checkpoint))
                ltac:(lia) ltac:(vm_compute; discriminate) ltac:(lia)) as W.
  cbv zeta in W. destruct W as [C [_ E]].
  split; [rewrite C | rewrite E]; reflexivity.
Defined.

Lemma checkpoint_in_epoch_resumes_at_next_witness :
  epochs_iterated
    (events
       (@training_loop toy "chat" 2 8 0%Q 0%Q 16 2 "cpu" tt (-1) (-1)
          (world
             (@train_batch toy "chat" 2 (T_device "cpu") 3
                (toy_trainer, @mkMetrics toy 0 0 0%Q)
                (4, (toy_prompts, toy_labels)) (toy_world None)))))
  = [4; 5].
Proof.
  pose proof (@checkpoint_in_epoch_resumes_at_next toy "chat" 2 8 0%Q 0%Q 16 2
                "cpu" tt (-1) (-1) (T_device "cpu") 3 toy_trainer
                (@mkMetrics toy 0 0 0%Q) 4 toy_prompts toy_labels
                (toy_world None) ltac:(lia) ltac:(reflexivity)
                ltac:(vm_compute; discriminate)) as W.
  cbv zeta in W. destruct W as [_ E]. rewrite E. reflexivity.
Defined.

(* ------------------------------------------------------------------ *)
(** ** The loss and the correct-token count of a batch *)

Section LossFacts.

Context {TORCH : Torch}.

Lemma combine_fst_snd {A B : Type} (l : list (A * B)) :
  combine (map fst l) (map snd l) = l.
Proof.
  induction l as [|[a b] l IH]; [reflexivity|]. cbn. now rewrite IH.
Qed.

Lemma filter_idem {A : Type} (f : A -> bool) (l : list A) :
  filter f (filter f l) = filter f l.
Proof.
  induction l as [|a l IH]; [reflexivity|].
  cbn. destruct (f a) eqn:E; [|exact IH]. cbn. now rewrite E, IH.
Qed.

(** X9: the loss of a batch is the loss of the batch with every padding
    position deleted: padding contributes neither a term to the sum nor a
    unit to the divisor. *)
Theorem criterion_ignores_padding (rows : list (list Float))
    (targets : list Z) :
  criterion rows targets =
  criterion (map fst (unpadded rows targets)) (map snd (unpadded rows targets)).
Proof.
  unfold criterion, CrossEntropyLoss, unpadded.
  rewrite combine_fst_snd, filter_idem. reflexivity.
Qed.

(** X10: when every expected label of a batch is padding the loss is the
    quotient of zero by zero, whatever the logits are. *)
Theorem criterion_all_padding (rows : list (list Float)) (targets : list Z) :
  Forall (fun t => t = PAD_IDX) targets ->
  criterion rows targets = fdiv (float_of_int 0) (float_of_int 0).
Proof.
  intros H. unfold criterion, CrossEntropyLoss.
  assert (E : filter (fun rt : list Float * Z => negb (snd rt =? PAD_IDX))
                (combine rows targets) = []).
  { revert rows. induction H as [|t ts Ht _ IH]; intros rows.
    - now destruct rows.
    - destruct rows as [|r rows]; [reflexivity|].
      cbn [combine filter snd]. subst t. rewrite Z.eqb_refl. apply IH. }
  rewrite E. reflexivity.
Qed.

Lemma filter_length_le {A : Type} (f : A -> bool) (l : list A) :
  (List.length (filter f l) <= List.length l)%nat.
Proof.
  induction l as [|a l IH]; [apply le_n|].
  cbn. destruct (f a); cbn; lia.
Qed.

(** X11: the correct-token count of a batch lies between zero and the number of
    positions at which a prediction is compared with an expected label,
    padding positions included. *)
Theorem count_correct_bounds (y : Logits) (labels : Tokens) :
  0 <= count_correct y (all_but_first labels) <= label_positions labels.
Proof.
  unfold count_correct, label_positions, len.
  split; [lia|].
  apply Nat2Z.inj_le.
  etransitivity; [apply filter_length_le|].
  rewrite length_combine. apply Nat.le_min_r.
Qed.

End LossFacts.

Lemma criterion_all_padding_witness :
  @criterion toy [[-3; -2; -1]%Q; [-2; -1; -3]%Q] [0; 0]
  = @fdiv toy (@float_of_int toy 0) (@float_of_int toy 0).
Proof.
  apply (@criterion_all_padding toy).
  repeat constructor.
Defined.

(* ------------------------------------------------------------------ *)
(** ** The workers the entry point launches *)

Lemma str_inj (a b : Z) : str a = str b -> a = b.
Proof.
  unfold str. intros H.
  assert (Hn : forall z, Z.to_int z <> Decimal.Pos Decimal.Nil /\
                         Z.to_int z <> Decimal.Neg Decimal.Nil).
  { intros [|p|p]; cbn; split; try discriminate;
      intros E; injection E as E; now apply Unsigned.to_uint_nonnil in E. }
  assert (E : Some (Z.to_int a) = Some (Z.to_int b)).
  { rewrite <- (NilZero.isi (Z.to_int a)) by apply Hn.
    rewrite <- (NilZero.isi (Z.to_int b)) by apply Hn.
    now rewrite H. }
  injection E as E.
  rewrite <- (DecimalZ.of_to a), <- (DecimalZ.of_to b). now rewrite E.
Qed.

Lemma filter_none {A : Type} (f : A -> bool) (l : list A) :
  (forall x, In x l -> f x = false) -> filter f l = [].
Proof.
  induction l as [|a l IH]; intros H; [reflexivity|].
  cbn. rewrite (H a) by now left. apply IH. intros x Hx. apply H. now right.
Qed.

Lemma range_NoDup (lo hi : Z) : NoDup (range lo hi).
Proof.
  unfold range. apply NoDup_map_NoDup_ForallPairs; [|apply seq_NoDup].
  intros i j _ _ H. lia.
Qed.

Section MainFacts.

Context {TORCH : Torch}.

(** X12: when the configured device is exactly "cuda" the entry point launches
    one worker per device, with the ranks [0 .. device_count - 1] in order
    and the device count as world size; every one of them joins the process
    group and runs on the accelerator named after its rank, no two on the
    same, and the worker of rank 0 alone is the designated reporter.  Each
    runs the loop with the model's maximum sequence length. *)
Theorem main_spawns_one_worker_per_device (a : TrainingArgs) (kw : Kwargs)
    (model_max_seq_len device_count : Z) :
  arg_device a = "cuda"%string ->
  let workers := main a kw model_max_seq_len device_count in
  map worker_rank workers = range 0 device_count /\
  Forall
    (fun wk =>
       worker_world_size wk = device_count /\
       is_distributed (worker_rank wk) (worker_world_size wk) = true /\
       worker_device (arg_device a) wk =
         mkDevice "cuda" (Some (str (worker_rank wk))) /\
       worker_run wk =
         training_loop (arg_model_name a) (arg_epochs a) (arg_batch_size a)
           (arg_learning_rate a) (arg_weight_decay a) model_max_seq_len
           (arg_checkpoint_interval a) (arg_device a) kw (worker_rank wk)
           device_count)
    workers /\
  NoDup (map (worker_device (arg_device a)) workers) /\
  map worker_rank (filter worker_reports workers) =
    (if 0 <? device_count then [0] else []).
Proof.
  intros Hd workers. unfold workers, main.
  cbn [set_max_seq_len arg_device]. rewrite Hd. cbn [String.eqb Ascii.eqb Bool.eqb].
  split; [|split; [|split]].
  - rewrite map_map. cbn [worker_rank]. apply map_id.
  - apply Forall_forall. intros wk Hwk. apply in_map_iff in Hwk.
    destruct Hwk as [i [<- Hi]]. apply in_range in Hi.
    cbn [worker_rank worker_world_size worker_run].
    split; [reflexivity|split; [|split]].
    + unfold is_distributed.
      destruct (Z.eqb_spec i (-1)); [lia|].
      destruct (Z.eqb_spec device_count (-1)); [lia|]. reflexivity.
    + unfold worker_device, loop_device, T_device. cbn [worker_rank].
      destruct (Z.eqb_spec i (-1)); [lia|]. cbn [negb].
      now rewrite split_colon_cuda.
    + unfold _training_loop_helper, call_training_loop.
      cbn [fst snd set_max_seq_len arg_model_name arg_epochs arg_batch_size
           arg_learning_rate arg_weight_decay arg_max_seq_len
           arg_checkpoint_interval arg_device].
      rewrite Hd. reflexivity.
  - rewrite map_map. unfold worker_device. cbn [worker_rank].
    apply NoDup_map_NoDup_ForallPairs; [|apply range_NoDup].
    intros i j Hi Hj. apply in_range in Hi, Hj.
    unfold loop_device, T_device.
    destruct (Z.eqb_spec i (-1)); [lia|].
    destruct (Z.eqb_spec j (-1)); [lia|]. cbn [negb].
    rewrite !split_colon_cuda. intros E. injection E as E. now apply str_inj.
  - destruct (Z.ltb_spec 0 device_count) as [Hn|Hn].
    + rewrite range_cons by lia. cbn [map filter].
      unfold worker_reports at 1. cbn [worker_rank worker_world_size].
      unfold is_main_process at 1.
      replace (device_count >? 0) with true by (symmetry; apply Z.gtb_lt; lia).
      cbn [Z.eqb andb orb map worker_rank]. f_equal.
      rewrite filter_none; [reflexivity|].
      intros wk Hwk. apply in_map_iff in Hwk.
      destruct Hwk as [i [<- Hi]]. apply in_range in Hi.
      unfold worker_reports, is_main_process.
      cbn [worker_rank worker_world_size].
      destruct (Z.eqb_spec i (-1)); [lia|].
      destruct (Z.eqb_spec i 0); [lia|]. reflexivity.
    + rewrite range_nil by lia. reflexivity.
Qed.

(** X13: with any other configured device, "cuda:0" included, the entry point
    makes one call of the loop, with rank and world size -1: that worker is
    the designated reporter, joins no process group, gets no distributed
    sampler and runs on the configured device. *)
Theorem main_runs_single_process_otherwise (a : TrainingArgs) (kw : Kwargs)
    (model_max_seq_len device_count : Z) :
  arg_device a <> "cuda"%string ->
  let workers := main a kw model_max_seq_len device_count in
  workers =
    [mkWorker (-1) (-1)
       (training_loop (arg_model_name a) (arg_epochs a) (arg_batch_size a)
          (arg_learning_rate a) (arg_weight_decay a) model_max_seq_len
          (arg_checkpoint_interval a) (arg_device a) kw (-1) (-1))] /\
  Forall
    (fun wk =>
       worker_reports wk = true /\
       is_distributed (worker_rank wk) (worker_world_size wk) = false /\
       worker_device (arg_device a) wk = T_device (arg_device a) /\
       sampler
         (loop_dataloader (arg_batch_size a) model_max_seq_len (arg_device a)
            (worker_rank wk) (worker_world_size wk)) = None)
    workers.
Proof.
  intros Hd workers. unfold workers, main.
  cbn [set_max_seq_len arg_device].
  apply String.eqb_neq in Hd. rewrite Hd.
  split.
  - unfold call_training_loop.
    cbn [set_max_seq_len arg_model_name arg_epochs arg_batch_size
         arg_learning_rate arg_weight_decay arg_max_seq_len
         arg_checkpoint_interval arg_device].
    reflexivity.
  - constructor; [|constructor].
    cbn [worker_rank worker_world_size].
    split; [reflexivity|split; [reflexivity|split; reflexivity]].
Qed.

End MainFacts.

Lemma main_spawns_one_worker_per_device_witness :
  map (@worker_rank toy) (@main toy (toy_args "cuda") tt 16 3) = [0; 1; 2] /\
  map (@worker_rank toy)
    (filter (@worker_reports toy) (@main toy (toy_args "cuda") tt 16 3))
  = [0].
Proof.
  pose proof (@main_spawns_one_worker_per_device toy (toy_args "cuda") tt 16 3
                eq_refl) as W.
  cbv zeta in W. destruct W as [R [_ [_ F]]].
  split; [rewrite R | rewrite F]; reflexivity.
Defined.

Lemma main_runs_single_process_otherwise_witness :
  map (@worker_rank toy) (@main toy (toy_args "cuda:0") tt 16 3) = [-1].
Proof.
  pose proof (@main_runs_single_process_otherwise toy (toy_args "cuda:0") tt
                16 3 ltac:(discriminate)) as W.
  cbv zeta in W. destruct W as [R _]. rewrite R. reflexivity.
Defined.

(* ------------------------------------------------------------------ *)
(** ** Saving for any interval, and the metrics records *)

Section IntervalFacts.

Context {TORCH : Torch}.

Lemma saving_batches_epoch_events name k device rank world_size dataloader tr
    epoch w :
  k <> 0 ->
  saving_batches
    (events (train_epoch name k device rank world_size dataloader tr epoch w))
  = filter (fun i => i mod k =? 0) (range 0 (len (iter_batches dataloader))).
Proof.
  intros Hk. unfold saving_batches.
  rewrite <- saving_batches_from_calls, train_epoch_calls by exact Hk.
  exact (saving_batches_epoch _ _ _ _ _ _).
Qed.

(** X8: the sign of the checkpoint interval does not matter, an epoch over at
    least one batch always saves in its first batch, and an interval as
    large as the number of batches saves in the first batch only. *)
Theorem first_batch_always_saves (name : string) (k : Z) (device : Device)
    (rank world_size : Z) (dataloader : DataLoader) (tr : Trainer) (epoch : Z)
    (w : World) :
  k <> 0 ->
  iter_batches dataloader <> [] ->
  let saved k' :=
    saving_batches
      (events (train_epoch name k' device rank world_size dataloader tr epoch w))
  in
  saved (- k) = saved k /\
  hd_error (saved k) = Some 0 /\
  (len (iter_batches dataloader) <= Z.abs k -> saved k = [0]).
Proof.
  intros Hk Hb saved. unfold saved.
  rewrite !saving_batches_epoch_events by lia.
  assert (Hl : 0 < len (iter_batches dataloader)).
  { unfold len. destruct (iter_batches dataloader); [congruence|].
    cbn [List.length]. lia. }
  split; [|split].
  - apply filter_ext. intros i.
    destruct (Z.eqb_spec (i mod - k) 0) as [E|E];
      destruct (Z.eqb_spec (i mod k) 0) as [E'|E']; try reflexivity;
      exfalso.
    + apply E'. apply Z.mod_divide; [exact Hk|].
      apply Z.mod_divide in E; [|lia]. exact (proj1 (Z.divide_opp_l k i) E).
    + apply E. apply Z.mod_divide; [lia|].
      apply Z.mod_divide in E'; [|lia]. exact (proj2 (Z.divide_opp_l k i) E').
  - rewrite range_cons by lia. cbn [filter].
    rewrite Z.mod_0_l by exact Hk. reflexivity.
  - intros Hle. rewrite range_cons by lia. cbn [filter].
    rewrite Z.mod_0_l by exact Hk. cbn [Z.eqb]. f_equal.
    apply filter_none. intros i Hi. apply in_range in Hi.
    apply Z.eqb_neq. intros E. apply Z.mod_divide in E; [|exact Hk].
    apply Z.divide_abs_l in E. apply Z.divide_pos_le in E; lia.
Qed.

Lemma metrics_records_app (a b : list Event) :
  metrics_records (a ++ b) = (metrics_records a + metrics_records b)%nat.
Proof. unfold metrics_records. now rewrite filter_app, length_app. Qed.

Lemma batch_loop_no_metrics name k device epoch bs : forall i0 st w,
  metrics_records
    (events (forM (enumerate_from i0 bs) (train_batch name k device epoch) st w))
  = 0%nat.
Proof.
  induction bs as [|b bs IH]; intros i0 st w; [reflexivity|].
  cbn [enumerate_from forM]. rewrite events_bind, metrics_records_app.
  destruct st as [tr mt], b as [p l]. rewrite train_batch_events.
  assert (Hb : metrics_records
                 (batch_events (is_cuda device) (logger_level w) name epoch
                    i0 k) = 0%nat).
  { unfold batch_events, step_calls, save_events.
    destruct (is_cuda device), (k =? 0), (i0 mod k =? 0), (logger_level w);
      reflexivity. }
  rewrite Hb. destruct (result _) as [e|st']; [reflexivity|]. apply IH.
Qed.

Lemma train_epoch_metrics_record name k device rank world_size dataloader tr
    epoch w :
  k <> 0 ->
  prompt_tokens (iter_batches dataloader) <> 0 ->
  metrics_records
    (events (train_epoch name k device rank world_size dataloader tr epoch w))
  = match logger_level w with INFO => 1%nat | CRITICAL => 0%nat end.
Proof.
  intros Hk Hp.
  destruct (batch_loop_ok name k device epoch (iter_batches dataloader) 0
              (tr, mkMetrics 0 0 (float_of_int 0)) w Hk)
    as [[tr' mt] [Hr [Ht [Hl _]]]].
  cbn [snd num_total] in Ht.
  pose proof (prompt_tokens_nonempty _ Hp) as Hn.
  unfold train_epoch, enumerate.
  rewrite !events_bind. cbn [emit result world events].
  rewrite !metrics_records_app, batch_loop_no_metrics, Hr.
  set (W := world (forM _ _ _ w)) in *.
  assert (Hz1 : (len (iter_batches dataloader) =? 0) = false)
    by now apply Z.eqb_neq.
  assert (Hz2 : (num_total mt =? 0) = false)
    by (apply Z.eqb_neq; rewrite Ht; cbn; exact Hp).
  unfold py_fdiv_int, py_truediv, logger_info. rewrite Hz1, Hz2.
  rewrite <- Hl. destruct W as [lvl pg cks mds]. cbn [logger_level].
  destruct lvl; reflexivity.
Qed.

Lemma epochs_loop_metrics_records name k device rank world_size dataloader es :
  k <> 0 ->
  prompt_tokens (iter_batches dataloader) <> 0 ->
  forall tr w,
  metrics_records
    (events
       (forM es (train_epoch name k device rank world_size dataloader) tr w))
  = match logger_level w with
    | INFO => List.length es
    | CRITICAL => 0%nat
    end.
Proof.
  intros Hk Hp. induction es as [|e es IH]; intros tr w.
  - now destruct (logger_level w).
  - cbn [forM]. rewrite events_bind, metrics_records_app.
    rewrite train_epoch_metrics_record by assumption.
    destruct (train_epoch_ok name k device rank world_size dataloader tr e w
                Hk Hp) as [tr1 [Hr [Hl _]]].
    rewrite Hr, IH, Hl. destruct (logger_level w); reflexivity.
Qed.

(** X2: in a run that completes, the designated reporter emits exactly one
    record with the accuracy and the average loss for every epoch, and the
    other workers none. *)
Theorem reporter_logs_metrics_once_per_epoch name epochs batch_size lr wd
    max_seq_len k device kw rank world_size w :
  k <> 0 ->
  prompt_tokens
    (iter_batches (loop_dataloader batch_size max_seq_len device rank world_size))
  <> 0 ->
  metrics_records
    (events (training_loop name epochs batch_size lr wd max_seq_len k device kw
               rank world_size w))
  = if is_main_process rank world_size then Z.to_nat epochs else 0%nat.
Proof.
  intros Hk Hp.
  destruct (training_loop_stages name epochs batch_size lr wd max_seq_len k
              device kw rank world_size w) as [_ [_ He]].
  rewrite He, !metrics_records_app. unfold epochs_run.
  rewrite (epochs_loop_metrics_records name k (loop_device device rank) rank
             world_size
             (loop_dataloader batch_size max_seq_len device rank world_size)
             _ Hk Hp).
  rewrite range_length. unfold setup_world, setup_events.
  cbn [logger_level].
  replace (Z.to_nat
             (starting_epochs_of (checkpoints w name) + epochs + 1 -
              (starting_epochs_of (checkpoints w name) + 1)))
    with (Z.to_nat epochs) by (f_equal; lia).
  destruct (result _), (is_distributed rank world_size),
    (is_main_process rank world_size), (checkpoints w name);
    cbn; lia.
Qed.

End IntervalFacts.

Lemma first_batch_always_saves_witness :
  saving_batches
    (events
       (@train_epoch toy "chat" (-7) (T_device "cpu") (-1) (-1)
          (loop_dataloader 8 16 "cpu" (-1) (-1)) toy_trainer 1
          (toy_world None)))
  = [0].
Proof.
  pose proof (@first_batch_always_saves toy "chat" (-7) (T_device "cpu") (-1)
                (-1) (loop_dataloader 8 16 "cpu" (-1) (-1)) toy_trainer 1
                (toy_world None) ltac:(lia) ltac:(discriminate)) as W.
  cbv zeta in W. destruct W as [_ [_ W]].
  apply W. vm_compute. discriminate.
Defined.

Lemma reporter_logs_metrics_once_per_epoch_witness :
  metrics_records
    (events
       (@training_loop toy "chat" 2 8 0%Q 0%Q 16 2 "cpu" tt 0 2
          (toy_world None)))
  = 2%nat.
Proof.
  apply (@reporter_logs_metrics_once_per_epoch toy "chat" 2 8 0%Q 0%Q 16 2
           "cpu" tt 0 2 (toy_world None));
    [lia | vm_compute; discriminate].
Defined.

(* ------------------------------------------------------------------ *)
(** ** A rank without a world size *)

Section HalfConfigured.

Context {TORCH : Torch}.

(** X14: a call of the loop with a rank other than -1 (a rank the library
    takes as a device ordinal) but the world size left at -1 is carried out
    on [cuda:rank] like a distributed worker, with every forward pass under
    autocast, yet it sets up no process group, gets no distributed sampler
    and so passes over the whole dataset, and, not being the designated
    reporter, emits no log record, rank 0 included; when its epochs
    complete and no process group was live it fails at the teardown. *)
Theorem rank_without_world_size name epochs batch_size lr wd max_seq_len k
    device kw rank w :
  device_index_ok rank = true ->
  let run := training_loop name epochs batch_size lr wd max_seq_len k device
               kw rank (-1) w in
  carried_out_on (mkDevice "cuda" (Some (str rank))) name epochs batch_size lr
    wd max_seq_len k kw rank (-1) w run /\
  Forall (fun a => a = true) (forward_flags (events run)) /\
  setup_world rank (-1) w =
    mkWorld CRITICAL (process_group w) (checkpoints w) (models w) /\
  sampler
    (prepare_dataloader batch_size max_seq_len rank (-1)
       (Some (mkDevice "cuda" (Some (str rank))))
       (Some (mkDevice "cuda" (Some (str rank)))))
  = None /\
  log_records (events run) = [] /\
  (k <> 0 ->
   prompt_tokens
     (iter_batches (loop_dataloader batch_size max_seq_len device rank (-1)))
   <> 0 ->
   process_group w = None ->
   result run = inl AssertionError /\ group_inits (events run) = 0%nat).
Proof.
  intros Hi run.
  pose proof (device_index_not_single rank Hi) as Hr.
  pose proof (loop_device_cuda device rank Hr) as Hd.
  assert (Hm : is_main_process rank (-1) = false).
  { unfold is_main_process. rewrite Hr.
    unfold device_index_ok in Hi. apply andb_prop in Hi as [_ _].
    cbn. now rewrite andb_false_r. }
  assert (Hn : is_distributed rank (-1) = false).
  { unfold is_distributed. cbn. now rewrite andb_false_r. }
  pose proof (training_loop_carried_out name epochs batch_size lr wd
                max_seq_len k device kw rank (-1) w) as Hc.
  pose proof (training_loop_flags name epochs batch_size lr wd max_seq_len k
                device kw rank (-1) w) as Hf.
  fold run in Hc, Hf. rewrite Hd in Hc, Hf.
  split; [exact Hc|]. split; [exact Hf|]. split; [|split; [|split]].
  - unfold setup_world. rewrite Hm, Hn. reflexivity.
  - unfold prepare_dataloader. cbn [sampler].
    now rewrite andb_false_r.
  - apply training_loop_silent. exact Hm.
  - intros Hk Hp Hg.
    destruct (training_loop_ok name epochs batch_size lr wd max_seq_len k
                device kw rank (-1) w Hk Hp) as [Hres [Hcalls _]].
    fold run in Hres, Hcalls. split.
    + rewrite Hres.
      unfold teardown_result, group_live, setup_world. cbn [process_group].
      rewrite Hn, Hg. reflexivity.
    + unfold group_inits. rewrite <- count_calls by reflexivity.
      rewrite Hcalls.
      etransitivity; [apply group_inits_run | now rewrite Hn].
Qed.

End HalfConfigured.

Lemma rank_without_world_size_witness :
  log_records
    (events
       (@training_loop toy "chat" 2 8 0%Q 0%Q 16 2 "cpu" tt 0 (-1)
          (toy_world None)))
  = [] /\
  result
    (@training_loop toy "chat" 2 8 0%Q 0%Q 16 2 "cpu" tt 0 (-1)
       (toy_world None))
  = inl AssertionError.
Proof.
  pose proof (@rank_without_world_size toy "chat" 2 8 0%Q 0%Q 16 2 "cpu" tt 0
                (toy_world None) eq_refl) as W.
  cbv zeta in W. destruct W as [_ [_ [_ [_ [L R]]]]].
  split; [exact L|].
  apply R; [lia | vm_compute; discriminate | reflexivity].
Defined.
